(** * Project Management Analytics (src/main.py): model and properties

    The dashboard loads a CSV of project records with pandas, filters the
    table by a project identifier, formats three prompt templates around
    the filtered columns and sends the prompt to a text-generation service.

    The embedding follows the source:
    - a cell of the table is the Python object that [Series.tolist()]
      yields for it; a DataFrame is the ordered list of its rows;
    - [df[df['Project_ID'] == project_id]] is written as pandas evaluates
      it: a column, an elementwise comparison giving a boolean mask, and
      boolean-mask indexing;
    - the f-string templates are concatenations of the literal text with
      Python's [repr] of the column lists;
    - the methods of [ProjectAnalytics], [load_data] and [main] are
      computations in a small state-and-exception monad over a world
      holding the DataFrame store, the Streamlit output, the widget state
      and the log of the calls to the external service. *)

From Stdlib Require Import ZArith List String Ascii Bool Lia.
From Stdlib Require Import DecimalString DecimalZ DecimalPos.
Import ListNotations.
Open Scope string_scope.

(* ================================================================== *)
(** ** Python values held in the table *)

Module PyValue.

(** The objects a cell of the loaded table can be: a [str] (object
    columns), an [int] (integer columns), the missing-value marker [nan]
    that [read_csv] puts in place of an empty field, and [None] (what
    [st.selectbox] returns when it has no option).  Floating-point cells
    other than [nan] are outside the model.  A [str] is given by its code
    points, one per character of the text, so the texts of the model are
    the Python strings whose code points are below 256. *)
Inductive cell : Type :=
  | CStr (s : string)
  | CInt (z : Z)
  | CNaN
  | CNone.

(** pandas' [isna]: the values that never compare equal to anything. *)
Definition isnull (v : cell) : bool :=
  match v with
  | CNaN | CNone => true
  | _ => false
  end.

(** The elementwise [==] of a Series against a scalar: strings and
    integers compare by value, values of different types are unequal, and
    a missing value on either side makes the comparison [False]. *)
Definition py_eq (x v : cell) : bool :=
  match x, v with
  | CStr a, CStr b => String.eqb a b
  | CInt a, CInt b => Z.eqb a b
  | _, _ => false
  end.

(** Key equality of [Series.unique()]: the hash table behind it keeps one
    entry per value and one entry for all [nan]s. *)
Definition same_key (x v : cell) : bool :=
  match x, v with
  | CStr a, CStr b => String.eqb a b
  | CInt a, CInt b => Z.eqb a b
  | CNaN, CNaN => true
  | CNone, CNone => true
  | _, _ => false
  end.

Definition hex_digit (n : nat) : ascii :=
  nth n (list_ascii_of_string "0123456789abcdef") "0"%char.

Definition has_char (c : ascii) (s : string) : bool :=
  existsb (Ascii.eqb c) (list_ascii_of_string s).

(** [repr] of a [str] picks double quotes exactly when the text has a
    single quote and no double quote. *)
Definition repr_quote (s : string) : ascii :=
  if has_char "039" s && negb (has_char "034" s) then "034"%char else "039"%char.

(** [str.isprintable] on one code point below 256: the controls (0-31,
    127-159), the no-break space (160) and the soft hyphen (173) are not
    printable; every other code point of that range is. *)
Definition printable (n : nat) : bool :=
  negb ((n <? 32)%nat || ((127 <=? n)%nat && (n <=? 160)%nat) || (n =? 173)%nat).

(** One character of [repr(str)], in the order of CPython's tests: the
    quote and the backslash, the three named escapes, then a
    hexadecimal escape for what is not printable. *)
Definition repr_char (quote c : ascii) : string :=
  let n := nat_of_ascii c in
  if Ascii.eqb c quote || Ascii.eqb c "\" then String "\" (String c "")
  else if Ascii.eqb c "009" then "\t"
  else if Ascii.eqb c "010" then "\n"
  else if Ascii.eqb c "013" then "\r"
  else if negb (printable n)
       then String "\" (String "x" (String (hex_digit (n / 16)) (String (hex_digit (n mod 16)) "")))
  else String c "".

Fixpoint repr_body (quote : ascii) (s : string) : string :=
  match s with
  | EmptyString => ""
  | String c s' => repr_char quote c ++ repr_body quote s'
  end.

Definition repr_str (s : string) : string :=
  let q := repr_quote s in
  String q (repr_body q s ++ String q "").

Definition repr_int (z : Z) : string :=
  NilZero.string_of_int (Z.to_int z).

(** [repr] of a cell. *)
Definition py_repr (v : cell) : string :=
  match v with
  | CStr s => repr_str s
  | CInt z => repr_int z
  | CNaN => "nan"
  | CNone => "None"
  end.

(** [repr] of a Python list: the elements' [repr]s separated by comma and
    space, in brackets.  It is what an f-string field prints for a list. *)
Definition repr_list (vs : list cell) : string :=
  "[" ++ String.concat ", " (map py_repr vs) ++ "]".

End PyValue.
Export PyValue.

(* ================================================================== *)
(** ** The table *)

Module Frame.

(** One row of the dataset, with the ten columns of the input file. *)
Record ProjectRecord : Type := {
  Project_ID : cell;
  Task_Name : cell;
  Estimated_Days : cell;
  Actual_Days : cell;
  Resource_Allocated : cell;
  Efficiency : cell;
  Idle_Time : cell;
  Risk_Type : cell;
  Likelihood : cell;
  Impact_Level : cell
}.

(** A DataFrame with the default index: its rows, in file order.  The
    columns [read_csv] builds hold strings (with [nan] for empty fields)
    or integers; an integer column with empty fields becomes a
    floating-point column in pandas and is outside the model. *)
Definition Dataset : Type := list ProjectRecord.

(** [df[name]] followed by [.tolist()]: the column as a list. *)
Definition column (name : ProjectRecord -> cell) (d : Dataset) : list cell :=
  map name d.

(** [series == v]: the boolean mask. *)
Definition series_eq (s : list cell) (v : cell) : list bool :=
  map (fun x => py_eq x v) s.

(** [df[mask]]: the rows at the positions where the mask holds.  The mask
    comes from a column of the same table, so both have the same length;
    recursion stops with the shorter one. *)
Fixpoint getitem_mask (d : Dataset) (mask : list bool) : Dataset :=
  match d, mask with
  | r :: d', b :: mask' =>
      if b then r :: getitem_mask d' mask' else getitem_mask d' mask'
  | _, _ => []
  end.

(** [df[df['Project_ID'] == project_id]] (lines 20, 38, 56, 102, 119,
    138). *)
Definition project_rows (d : Dataset) (project_id : cell) : Dataset :=
  getitem_mask d (series_eq (column Project_ID d) project_id).

(** [Series.unique()]: the distinct values in order of first appearance.
    [seen] is the hash table filled so far. *)
Fixpoint unique_from (seen : list cell) (s : list cell) : list cell :=
  match s with
  | [] => []
  | x :: s' =>
      if existsb (same_key x) seen then unique_from seen s'
      else x :: unique_from (x :: seen) s'
  end.

Definition unique (s : list cell) : list cell := unique_from [] s.

(** The kind of a column's dtype as plotly looks at it: the integer and
    floating-point dtypes count as one kind, [object] is another. *)
Inductive dtype_kind : Type := KNumber | KObject.

Definition dtype_kind_eqb (a b : dtype_kind) : bool :=
  match a, b with
  | KNumber, KNumber | KObject, KObject => true
  | _, _ => false
  end.

(** A cell that a numeric column can hold: an integer, or [nan] (with
    which the column is a floating-point column). *)
Definition is_number (v : cell) : bool :=
  match v with
  | CInt _ | CNaN => true
  | _ => false
  end.

(** The dtype kind [read_csv] gives a column: numeric when it has rows
    and all of them are numbers or missing, [object] otherwise (text, or
    no row at all). *)
Definition dtype_kind_of (s : list cell) : dtype_kind :=
  match s with
  | [] => KObject
  | _ :: _ => if forallb is_number s then KNumber else KObject
  end.

(** The column a name stands for. *)
Definition column_named (name : string) : option (ProjectRecord -> cell) :=
  if String.eqb name "Project_ID" then Some Project_ID
  else if String.eqb name "Task_Name" then Some Task_Name
  else if String.eqb name "Estimated_Days" then Some Estimated_Days
  else if String.eqb name "Actual_Days" then Some Actual_Days
  else if String.eqb name "Resource_Allocated" then Some Resource_Allocated
  else if String.eqb name "Efficiency" then Some Efficiency
  else if String.eqb name "Idle_Time" then Some Idle_Time
  else if String.eqb name "Risk_Type" then Some Risk_Type
  else if String.eqb name "Likelihood" then Some Likelihood
  else if String.eqb name "Impact_Level" then Some Impact_Level
  else None.

(** [df.dtypes]: the dtype kind of each column of a table, by name.  A
    frame taken from the table by boolean indexing keeps these dtypes,
    whatever rows it holds. *)
Definition dtypes (d : Dataset) (name : string) : option dtype_kind :=
  match column_named name with
  | Some c => Some (dtype_kind_of (column c d))
  | None => None
  end.

End Frame.
Export Frame.

(* ================================================================== *)
(** ** The prompt templates *)

Module Prompt.

Definition nl : string := String "010" "".

(** The eight spaces every line of the triple-quoted templates starts
    with. *)
Definition indent : string := "        ".

(** A line of literal template text. *)
Definition line (s : string) : string := indent ++ s ++ nl.

(** A line with an f-string field: label, then the list's [repr]. *)
Definition field (label : string) (vs : list cell) : string :=
  indent ++ label ++ repr_list vs ++ nl.

(** Lines 22-32. *)
Definition timeline_prompt (project_data : Dataset) : string :=
  nl ++
  line "Analyze this project timeline data:" ++
  field "Tasks: " (column Task_Name project_data) ++
  field "Estimated Days: " (column Estimated_Days project_data) ++
  field "Actual Days: " (column Actual_Days project_data) ++
  line "" ++
  line "Provide:" ++
  line "1. Timeline prediction based on historical data" ++
  line "2. Potential delays and bottlenecks" ++
  line "3. Schedule optimization suggestions" ++
  indent.

(** Lines 40-50. *)
Definition resource_prompt (project_data : Dataset) : string :=
  nl ++
  line "Analyze resource data:" ++
  field "Resources: " (column Resource_Allocated project_data) ++
  field "Efficiency: " (column Efficiency project_data) ++
  field "Idle Time: " (column Idle_Time project_data) ++
  line "" ++
  line "Provide:" ++
  line "1. Resource utilization recommendations" ++
  line "2. How to minimize idle time" ++
  line "3. Efficiency improvement suggestions" ++
  indent.

(** Lines 58-68. *)
Definition risk_prompt (project_data : Dataset) : string :=
  nl ++
  line "Analyze project risks:" ++
  field "Risk Types: " (column Risk_Type project_data) ++
  field "Likelihood: " (column Likelihood project_data) ++
  field "Impact: " (column Impact_Level project_data) ++
  line "" ++
  line "Provide:" ++
  line "1. Risk assessment summary" ++
  line "2. Mitigation strategies" ++
  line "3. Priority recommendations" ++
  indent.

(** The three analysis kinds, and the Prompt Builder as the dispatch to
    the template of the kind. *)
Inductive AnalysisKind : Type := Timeline | Resource | Risk.

Definition build_prompt (kind : AnalysisKind) (project_data : Dataset) : string :=
  match kind with
  | Timeline => timeline_prompt project_data
  | Resource => resource_prompt project_data
  | Risk => risk_prompt project_data
  end.

(** The columns each kind embeds, in template order. *)
Definition kind_columns (kind : AnalysisKind) : list (ProjectRecord -> cell) :=
  match kind with
  | Timeline => [Task_Name; Estimated_Days; Actual_Days]
  | Resource => [Resource_Allocated; Efficiency; Idle_Time]
  | Risk => [Risk_Type; Likelihood; Impact_Level]
  end.

End Prompt.
Export Prompt.

(* ================================================================== *)
(** ** The program: world, monad, [ProjectAnalytics], [load_data], [main] *)

Module Runtime.

(** A raised Python exception: whether its class derives from
    [Exception] (what [except Exception] catches) and its [str]. *)
Record exn : Type := {
  exn_is_Exception : bool;
  exn_str : string
}.

(** How a computation ends: with a value, with an exception, or by
    [st.stop()], which ends the script run. *)
Inductive outcome (A : Type) : Type :=
  | Ret (a : A)
  | Raise (e : exn)
  | Halt.
Arguments Ret {A} a.
Arguments Raise {A} e.
Arguments Halt {A}.

Inductive FigKind : Type := Bar | Scatter.

(** A plotly express figure: the frame it draws and its keyword
    arguments. *)
Record Figure : Type := {
  fig_kind : FigKind;
  fig_data : Dataset;
  fig_x : string;
  fig_y : list string;
  fig_color : option string;
  fig_title : string;
  fig_barmode : option string
}.

(** What the script sends to the page, in order. *)
Inductive UIEvent : Type :=
  | Title (s : string)
  | ErrorBox (s : string)
  | SidebarSelectbox (label : string) (options : list string)
  | Selectbox (label : string) (options : list cell)
  | Header (s : string)
  | Button (label : string)
  | Spinner (s : string)
  | PlotlyChart (fig : Figure)
  | Subheader (s : string)
  | Write (s : string).

(** The state of the widgets for this run of the script: the index chosen
    in each select box and the button that was clicked. *)
Record Session : Type := {
  analysis_index : nat;
  project_index : nat;
  clicked : string -> bool
}.

(** The collaborators outside the program: the file system seen through
    [pd.read_csv], and the text-generation service with its own state. *)
Class Environment : Type := {
  svc_state : Type;
  response : Type;
  read_csv : string -> Dataset + exn;
  generate : string -> svc_state -> (response + exn) * svc_state;
  text : response -> string + exn
}.

Section Program.

Context {Env : Environment}.

(** DataFrame objects live in a store and are named by their address, so
    that [self.df] and the [df] of [main] are one object. *)
Definition ref : Type := nat.

Record World : Type := {
  heap : list Dataset;
  ui : list UIEvent;
  session : Session;
  calls : list string;
  svc : svc_state
}.

Definition M (A : Type) : Type := World -> outcome A * World.

Definition ret {A : Type} (a : A) : M A := fun w => (Ret a, w).

Definition bind {A B : Type} (m : M A) (k : A -> M B) : M B :=
  fun w =>
    match m w with
    | (Ret a, w') => k a w'
    | (Raise e, w') => (Raise e, w')
    | (Halt, w') => (Halt, w')
    end.

Definition raise {A : Type} (e : exn) : M A := fun w => (Raise e, w).

(** [try: body except Exception as e: handler]. *)
Definition try_except {A : Type} (body : M A) (handler : exn -> M A) : M A :=
  fun w =>
    match body w with
    | (Raise e, w') =>
        if exn_is_Exception e then handler e w' else (Raise e, w')
    | r => r
    end.

Local Notation "x <- c1 ;; c2" := (bind c1 (fun x => c2))
  (at level 61, c1 at next level, right associativity).
Local Notation "c1 ;; c2" := (bind c1 (fun _ => c2))
  (at level 61, right associativity).

(** *** Primitives *)

Definition emit (ev : UIEvent) : M unit :=
  fun w => (Ret tt, {| heap := heap w; ui := ui w ++ [ev]; session := session w;
                       calls := calls w; svc := svc w |}).

Definition st_title (s : string) : M unit := emit (Title s).
Definition st_error (s : string) : M unit := emit (ErrorBox s).
Definition st_header (s : string) : M unit := emit (Header s).
Definition st_subheader (s : string) : M unit := emit (Subheader s).
Definition st_write (s : string) : M unit := emit (Write s).
Definition st_spinner (s : string) : M unit := emit (Spinner s).
Definition st_plotly_chart (fig : Figure) : M unit := emit (PlotlyChart fig).

(** [st.stop()] never returns. *)
Definition st_stop {A : Type} : M A := fun w => (Halt, w).

(** [st.button(label)]: true in the run triggered by a click on it. *)
Definition st_button (label : string) : M bool :=
  emit (Button label) ;; fun w => (Ret (clicked (session w) label), w).

(** [st.sidebar.selectbox]: the option at the chosen index. *)
Definition st_sidebar_selectbox (label : string) (options : list string)
  : M (option string) :=
  emit (SidebarSelectbox label options) ;;
  fun w => (Ret (nth_error options (analysis_index (session w))), w).

(** [st.selectbox]: the option at the chosen index, [None] when there is
    none. *)
Definition st_selectbox (label : string) (options : list cell) : M cell :=
  emit (Selectbox label options) ;;
  fun w => (Ret (nth (project_index (session w)) options CNone), w).

(** [pd.read_csv(path)]: a new DataFrame object, or the exception. *)
Definition pd_read_csv (path : string) : M ref :=
  fun w =>
    match read_csv path with
    | inl d => (Ret (List.length (heap w)),
                {| heap := heap w ++ [d]; ui := ui w; session := session w;
                   calls := calls w; svc := svc w |})
    | inr e => (Raise e, w)
    end.

(** Reading the DataFrame object behind a reference.  References come
    from [pd_read_csv] and the store only grows, so the second case does
    not arise in a run of the script. *)
Definition deref (r : ref) : M Dataset :=
  fun w =>
    match nth_error (heap w) r with
    | Some d => (Ret d, w)
    | None => (Raise {| exn_is_Exception := true; exn_str := "dangling reference" |}, w)
    end.

Inductive GenerativeModel : Type := GenerativeModel_named (name : string).

(** Line 12. *)
Definition model : GenerativeModel := GenerativeModel_named "gemini-pro".

(** [model.generate_content(prompt)]: one request to the service. *)
Definition generate_content (m : GenerativeModel) (prompt : string) : M response :=
  fun w =>
    let (r, s') := generate prompt (svc w) in
    let w' := {| heap := heap w; ui := ui w; session := session w;
                 calls := calls w ++ [prompt]; svc := s' |} in
    match r with
    | inl resp => (Ret resp, w')
    | inr e => (Raise e, w')
    end.

(** [response.text]. *)
Definition get_text (resp : response) : M string :=
  match text resp with
  | inl s => ret s
  | inr e => raise e
  end.

(** *** class ProjectAnalytics (lines 14-71) *)

Record ProjectAnalytics : Type := {
  df : ref;
  self_model : GenerativeModel
}.

(** [__init__]. *)
Definition init (df0 : ref) : ProjectAnalytics :=
  {| df := df0; self_model := model |}.

Definition analyze_timeline (self : ProjectAnalytics) (project_id : cell) : M string :=
  d <- deref (df self) ;;
  let project_data := project_rows d project_id in
  let prompt := timeline_prompt project_data in
  resp <- generate_content (self_model self) prompt ;;
  get_text resp.

Definition optimize_resources (self : ProjectAnalytics) (project_id : cell) : M string :=
  d <- deref (df self) ;;
  let project_data := project_rows d project_id in
  let prompt := resource_prompt project_data in
  resp <- generate_content (self_model self) prompt ;;
  get_text resp.

Definition assess_risks (self : ProjectAnalytics) (project_id : cell) : M string :=
  d <- deref (df self) ;;
  let project_data := project_rows d project_id in
  let prompt := risk_prompt project_data in
  resp <- generate_content (self_model self) prompt ;;
  get_text resp.

(** The analysis operation of a kind. *)
Definition analysis (kind : AnalysisKind) : ProjectAnalytics -> cell -> M string :=
  match kind with
  | Timeline => analyze_timeline
  | Resource => optimize_resources
  | Risk => assess_risks
  end.

(** *** load_data (lines 73-79) *)

Definition load_data : M (option ref) :=
  try_except
    (df0 <- pd_read_csv "project_data.csv" ;; ret (Some df0))
    (fun e => st_error ("Error loading data: " ++ exn_str e) ;; ret None).

(** *** main (lines 81-151) *)

(** The bar figure of a frame. *)
Definition bar_figure (data : Dataset) (x : string) (y : list string)
    (title barmode : string) : Figure :=
  {| fig_kind := Bar; fig_data := data; fig_x := x; fig_y := y;
     fig_color := None; fig_title := title; fig_barmode := Some barmode |}.

Definition not_a_column : exn :=
  {| exn_is_Exception := true;
     exn_str := "Value of 'y' is not the name of a column in 'data_frame'." |}.

Definition wide_form_error : exn :=
  {| exn_is_Exception := true;
     exn_str := "Plotly Express cannot process wide-form data with columns of different type." |}.

(** The dtype kinds of the named columns, when all names are columns. *)
Fixpoint kinds_of (types : string -> option dtype_kind) (names : list string)
  : option (list dtype_kind) :=
  match names with
  | [] => Some []
  | n :: names' =>
      match types n, kinds_of types names' with
      | Some k, Some ks => Some (k :: ks)
      | _, _ => None
      end
  end.

(** All kinds of a list are the kind of its first element. *)
Definition one_kind (ks : list dtype_kind) : bool :=
  match ks with
  | [] => true
  | k :: ks' => forallb (dtype_kind_eqb k) ks'
  end.

(** [px.bar(data, x=..., y=[...], title=..., barmode=...)] with a list of
    y columns (wide form): plotly raises [ValueError] when a name is not
    a column of the frame and when the y columns are not all of one
    dtype kind; otherwise it gives the figure.  [types] are the dtypes
    of the frame [data]. *)
Definition px_bar (types : string -> option dtype_kind) (data : Dataset)
    (x : string) (y : list string) (title barmode : string) : M Figure :=
  match types x, kinds_of types y with
  | Some _, Some ks =>
      if one_kind ks then ret (bar_figure data x y title barmode)
      else raise wide_form_error
  | _, _ => raise not_a_column
  end.

Definition px_scatter (data : Dataset) (x y color title : string) : Figure :=
  {| fig_kind := Scatter; fig_data := data; fig_x := x; fig_y := [y];
     fig_color := Some color; fig_title := title; fig_barmode := None |}.

(** [analysis_type == s]. *)
Definition str_is (x : option string) (s : string) : bool :=
  match x with
  | Some t => String.eqb t s
  | None => false
  end.

(** Lines 97-113. *)
Definition predictive_scheduling (df0 : ref) (analytics : ProjectAnalytics)
    (selected_project : cell) : M unit :=
  st_header "Predictive Scheduling" ;;
  pressed <- st_button "Analyze Timeline" ;;
  if pressed : bool then
    st_spinner "Analyzing..." ;;
    d <- deref df0 ;;
    let project_df := project_rows d selected_project in
    fig <- px_bar (dtypes d) project_df "Task_Name"
             ["Estimated_Days"; "Actual_Days"] "Task Duration Analysis" "group" ;;
    st_plotly_chart fig ;;
    result <- analyze_timeline analytics selected_project ;;
    st_subheader "AI Insights" ;;
    st_write result
  else ret tt.

(** Lines 115-132. *)
Definition resource_optimization (df0 : ref) (analytics : ProjectAnalytics)
    (selected_project : cell) : M unit :=
  st_header "Resource Optimization" ;;
  pressed <- st_button "Optimize Resources" ;;
  if pressed : bool then
    st_spinner "Analyzing..." ;;
    d <- deref df0 ;;
    let project_df := project_rows d selected_project in
    let fig := px_scatter project_df "Efficiency" "Idle_Time" "Resource_Allocated"
                 "Resource Utilization Analysis" in
    st_plotly_chart fig ;;
    optimization <- optimize_resources analytics selected_project ;;
    st_subheader "Optimization Recommendations" ;;
    st_write optimization
  else ret tt.

(** Lines 134-151. *)
Definition risk_assessment (df0 : ref) (analytics : ProjectAnalytics)
    (selected_project : cell) : M unit :=
  st_header "Risk Assessment" ;;
  pressed <- st_button "Assess Risks" ;;
  if pressed : bool then
    st_spinner "Analyzing..." ;;
    d <- deref df0 ;;
    let project_df := project_rows d selected_project in
    let fig := px_scatter project_df "Likelihood" "Impact_Level" "Risk_Type"
                 "Risk Matrix" in
    st_plotly_chart fig ;;
    risk_analysis <- assess_risks analytics selected_project ;;
    st_subheader "Risk Assessment" ;;
    st_write risk_analysis
  else ret tt.

(** The part of [main] after the load succeeded (lines 88-151). *)
Definition dashboard (df0 : ref) : M unit :=
  let analytics := init df0 in
  analysis_type <- st_sidebar_selectbox "Select Analysis"
    ["Predictive Scheduling"; "Resource Optimization"; "Risk Assessment"] ;;
  d <- deref df0 ;;
  selected_project <- st_selectbox "Select Project" (unique (column Project_ID d)) ;;
  if str_is analysis_type "Predictive Scheduling" then
    predictive_scheduling df0 analytics selected_project
  else if str_is analysis_type "Resource Optimization" then
    resource_optimization df0 analytics selected_project
  else
    risk_assessment df0 analytics selected_project.

(** [st.stop()] does not return, so what follows the test of line 85 runs
    only with a loaded table. *)
Definition main : M unit :=
  st_title "Project Management Analytics" ;;
  loaded <- load_data ;;
  match loaded with
  | None => st_stop
  | Some df0 => dashboard df0
  end.

(** The world a script run starts in. *)
Definition start (ses : Session) (s : svc_state) : World :=
  {| heap := []; ui := []; session := ses; calls := []; svc := s |}.

End Program.

End Runtime.
Export Runtime.

(* ================================================================== *)
(** ** Notions used to state the properties *)

(** [Subsequence l d]: [l] is obtained from [d] by deleting elements,
    the remaining ones keeping their relative order. *)
Inductive Subsequence {A : Type} : list A -> list A -> Prop :=
  | sub_done : Subsequence [] []
  | sub_keep : forall x l d, Subsequence l d -> Subsequence (x :: l) (x :: d)
  | sub_drop : forall x l d, Subsequence l d -> Subsequence l (x :: d).

(** [InOrder pieces t]: the pieces occur in [t] one after the other,
    without overlap, in the order of the list. *)
Fixpoint InOrder (pieces : list string) (t : string) : Prop :=
  match pieces with
  | [] => True
  | p :: rest => exists before after, t = before ++ p ++ after /\ InOrder rest after
  end.

Definition cell_eq_dec (x y : cell) : {x = y} + {x <> y}.
Proof.
  decide equality; [apply string_dec | apply Z.eq_dec].
Defined.

Definition record_eq_dec (r r' : ProjectRecord) : {r = r'} + {r <> r'}.
Proof.
  decide equality; apply cell_eq_dec.
Defined.

(** How often a record occurs in a table. *)
Definition occurrences (r : ProjectRecord) (d : Dataset) : nat :=
  count_occ record_eq_dec d r.

(** *** Reading a list literal back

    The inverse of [repr_list], as Python's own parser reads a literal:
    it is not part of the program and serves to state that a literal in a
    prompt determines the values it was printed from, and their order. *)

(** The value of a lower-case hexadecimal digit. *)
Definition hex_value (c : ascii) : option nat :=
  let n := nat_of_ascii c in
  if (48 <=? n)%nat && (n <=? 57)%nat then Some (n - 48)
  else if (97 <=? n)%nat && (n <=? 102)%nat then Some (n - 87)
  else None.

(** The character a one-letter escape stands for. *)
Definition unescape (e : ascii) : ascii :=
  if Ascii.eqb e "t" then "009"%char
  else if Ascii.eqb e "n" then "010"%char
  else if Ascii.eqb e "r" then "013"%char
  else e.

(** The text of a string literal up to its closing quote [q], and what
    follows the quote. *)
Fixpoint read_text (q : ascii) (s : string) : option (string * string) :=
  match s with
  | EmptyString => None
  | String c rest =>
      if Ascii.eqb c q then Some ("", rest)
      else if Ascii.eqb c "\" then
        match rest with
        | EmptyString => None
        | String e rest1 =>
            if Ascii.eqb e "x" then
              match rest1 with
              | String h (String l rest2) =>
                  match hex_value h, hex_value l, read_text q rest2 with
                  | Some a, Some b, Some (t, r) =>
                      Some (String (ascii_of_nat (16 * a + b)) t, r)
                  | _, _, _ => None
                  end
              | _ => None
              end
            else
              match read_text q rest1 with
              | Some (t, r) => Some (String (unescape e) t, r)
              | None => None
              end
        end
      else
        match read_text q rest with
        | Some (t, r) => Some (String c t, r)
        | None => None
        end
  end.

Definition is_digit (c : ascii) : bool :=
  let n := nat_of_ascii c in (48 <=? n)%nat && (n <=? 57)%nat.

(** The longest run of digits at the start of a text, and the rest. *)
Fixpoint read_digits (s : string) : string * string :=
  match s with
  | EmptyString => ("", "")
  | String c rest =>
      if is_digit c then let (ds, r) := read_digits rest in (String c ds, r)
      else ("", s)
  end.

(** An optional minus sign and the digits after it. *)
Definition read_number (s : string) : string * string :=
  match s with
  | String c rest =>
      if Ascii.eqb c "-" then let (ds, r) := read_digits rest in (String c ds, r)
      else read_digits s
  | EmptyString => ("", "")
  end.

(** [strip p s]: [s] without its prefix [p]. *)
Fixpoint strip (p s : string) : option string :=
  match p, s with
  | EmptyString, _ => Some s
  | String a p', String b s' => if Ascii.eqb a b then strip p' s' else None
  | _, _ => None
  end.

(** One value at the start of a text: an integer, a string literal,
    [nan] or [None]. *)
Definition read_cell (s : string) : option (cell * string) :=
  match read_number s with
  | (String _ _ as ds, r) =>
      match NilZero.int_of_string ds with
      | Some d => Some (CInt (Z.of_int d), r)
      | None => None
      end
  | (EmptyString, _) =>
      match s with
      | EmptyString => None
      | String c rest =>
          if Ascii.eqb c "039" || Ascii.eqb c "034" then
            match read_text c rest with
            | Some (t, r) => Some (CStr t, r)
            | None => None
            end
          else
            match strip "nan" s, strip "None" s with
            | Some r, _ => Some (CNaN, r)
            | None, Some r => Some (CNone, r)
            | None, None => None
            end
      end
  end.

(** The values up to the closing bracket; [fuel] bounds their number. *)
Fixpoint read_items (fuel : nat) (s : string) : option (list cell) :=
  match fuel with
  | O => None
  | S fuel' =>
      match read_cell s with
      | None => None
      | Some (v, r) =>
          match strip "]" r, strip ", " r with
          | Some EmptyString, _ => Some [v]
          | Some _, _ => None
          | None, Some r' => option_map (cons v) (read_items fuel' r')
          | None, None => None
          end
      end
  end.

(** A whole list literal. *)
Definition read_list (s : string) : option (list cell) :=
  match strip "[" s with
  | None => None
  | Some r =>
      if String.eqb r "]" then Some []
      else read_items (String.length r) r
  end.

(** A text that does not go on with a digit. *)
Definition ends_number (rest : string) : bool :=
  match rest with
  | EmptyString => true
  | String c _ => negb (is_digit c)
  end.

(** *** Example tables *)

Definition task (project name : string) (estimated actual : Z) : ProjectRecord :=
  {| Project_ID := CStr project; Task_Name := CStr name;
     Estimated_Days := CInt estimated; Actual_Days := CInt actual;
     Resource_Allocated := CStr "Team A"; Efficiency := CInt 80;
     Idle_Time := CInt 2; Risk_Type := CStr "Technical";
     Likelihood := CInt 3; Impact_Level := CInt 4 |}.

(** The example of the specification: two rows of project P1 (tasks
    Design and Build) and one row of P2. *)
Definition example_table : Dataset :=
  [task "P1" "Design" 5 7; task "P1" "Build" 10 9; task "P2" "Test" 3 3].

(** A row read from a line whose Project_ID field is empty. *)
Definition unassigned_task : ProjectRecord :=
  {| Project_ID := CNaN; Task_Name := CStr "Review";
     Estimated_Days := CInt 1; Actual_Days := CInt 2;
     Resource_Allocated := CStr "Team B"; Efficiency := CInt 70;
     Idle_Time := CInt 1; Risk_Type := CStr "Schedule";
     Likelihood := CInt 2; Impact_Level := CInt 2 |}.

Definition table_with_blank : Dataset :=
  [task "P1" "Design" 5 7; unassigned_task].

(** The prompt each kind gives for a table without rows, as text. *)
Definition empty_prompt (kind : AnalysisKind) : string :=
  match kind with
  | Timeline => "
        Analyze this project timeline data:
        Tasks: []
        Estimated Days: []
        Actual Days: []
        
        Provide:
        1. Timeline prediction based on historical data
        2. Potential delays and bottlenecks
        3. Schedule optimization suggestions
        "
  | Resource => "
        Analyze resource data:
        Resources: []
        Efficiency: []
        Idle Time: []
        
        Provide:
        1. Resource utilization recommendations
        2. How to minimize idle time
        3. Efficiency improvement suggestions
        "
  | Risk => "
        Analyze project risks:
        Risk Types: []
        Likelihood: []
        Impact: []
        
        Provide:
        1. Risk assessment summary
        2. Mitigation strategies
        3. Priority recommendations
        "
  end.

(** *** Notions about runs *)

Section RunNotions.

Context {Env : Environment}.

(** The world after one request with [prompt] that left the service in
    state [s']: only the call log and the service differ. *)
Definition after_request (w : World) (prompt : string) (s' : svc_state) : World :=
  {| heap := heap w; ui := ui w; session := session w;
     calls := calls w ++ [prompt]; svc := s' |}.

(** The world after more output: only the page differs. *)
Definition after_output (w : World) (evs : list UIEvent) : World :=
  {| heap := heap w; ui := ui w ++ evs; session := session w;
     calls := calls w; svc := svc w |}.

(** A computation whose final world is always related to its initial
    world by [R]. *)
Definition respects (R : World -> World -> Prop) {A : Type} (m : M A) : Prop :=
  forall w, R w (snd (m w)).

(** The store is as before. *)
Definition same_store (w w' : World) : Prop := heap w' = heap w.

(** The page is as before, with more output after it. *)
Definition more_output (w w' : World) : Prop :=
  exists evs : list UIEvent, ui w' = (ui w ++ evs)%list.

(** The analysis the side bar selects: the first two options by name,
    anything else is the risk page (the [else] of line 134). *)
Definition chosen_kind (ses : Session) : AnalysisKind :=
  match analysis_index ses with
  | 0 => Timeline
  | 1 => Resource
  | _ => Risk
  end.

(** The project the select box returns for a loaded table. *)
Definition chosen_project (ses : Session) (d : Dataset) : cell :=
  nth (project_index ses) (unique (column Project_ID d)) CNone.

(** The button of each page. *)
Definition button_of (kind : AnalysisKind) : string :=
  match kind with
  | Timeline => "Analyze Timeline"
  | Resource => "Optimize Resources"
  | Risk => "Assess Risks"
  end.

(** The page of each kind. *)
Definition page (kind : AnalysisKind) : ref -> ProjectAnalytics -> cell -> M unit :=
  match kind with
  | Timeline => predictive_scheduling
  | Resource => resource_optimization
  | Risk => risk_assessment
  end.

End RunNotions.

(** *** Example collaborators *)

Definition file_missing : exn :=
  {| exn_is_Exception := true;
     exn_str := "[Errno 2] No such file or directory: 'project_data.csv'" |}.

Definition quota_exhausted : exn :=
  {| exn_is_Exception := true; exn_str := "429 Resource has been exhausted" |}.

(** No input file; the service would answer. *)
Definition no_file : Environment :=
  {| svc_state := nat; response := string;
     read_csv := fun _ => inr file_missing;
     generate := fun _ n => (inl "On track.", S n);
     text := fun r => inl r |}.

(** The example table on disk; the service answers every request and
    counts them. *)
Definition answering : Environment :=
  {| svc_state := nat; response := string;
     read_csv := fun _ => inl example_table;
     generate := fun _ n => (inl "On track.", S n);
     text := fun r => inl r |}.

(** The example table on disk; the service refuses every request. *)
Definition refusing : Environment :=
  {| svc_state := nat; response := string;
     read_csv := fun _ => inl example_table;
     generate := fun _ n => (inr quota_exhausted, S n);
     text := fun r => inl r |}.

(** A table with an empty Project_ID field on disk. *)
Definition blank_on_disk : Environment :=
  {| svc_state := nat; response := string;
     read_csv := fun _ => inl table_with_blank;
     generate := fun _ n => (inl "On track.", S n);
     text := fun r => inl r |}.

(** A session: first analysis, first project, the given button clicked. *)
Definition click (label : string) : Session :=
  {| analysis_index := 0; project_index := 0;
     clicked := fun l => String.eqb l label |}.

(** The same with the second project selected. *)
Definition click_second (label : string) : Session :=
  {| analysis_index := 0; project_index := 1;
     clicked := fun l => String.eqb l label |}.

(** A world whose store holds one table. *)
Definition holding {Env : Environment} (d : Dataset) (ses : Session)
    (s : svc_state) : World :=
  {| heap := [d]; ui := []; session := ses; calls := []; svc := s |}.

(** *** What a page shows *)

(** The header of each page (lines 98, 116, 135). *)
Definition header_of (kind : AnalysisKind) : string :=
  match kind with
  | Timeline => "Predictive Scheduling"
  | Resource => "Resource Optimization"
  | Risk => "Risk Assessment"
  end.

(** The sub-header over the text of the analysis (lines 112, 131, 150). *)
Definition result_header_of (kind : AnalysisKind) : string :=
  match kind with
  | Timeline => "AI Insights"
  | Resource => "Optimization Recommendations"
  | Risk => "Risk Assessment"
  end.

(** The chart of each page for the rows it is given (lines 103-107,
    122-126, 141-145). *)
Definition figure_of (kind : AnalysisKind) (rows : Dataset) : Figure :=
  match kind with
  | Timeline => bar_figure rows "Task_Name" ["Estimated_Days"; "Actual_Days"]
                  "Task Duration Analysis" "group"
  | Resource => px_scatter rows "Efficiency" "Idle_Time" "Resource_Allocated"
                  "Resource Utilization Analysis"
  | Risk => px_scatter rows "Likelihood" "Impact_Level" "Risk_Type" "Risk Matrix"
  end.

(** The two duration columns of a table are of one dtype kind. *)
Definition same_type_days (d : Dataset) : bool :=
  dtype_kind_eqb (dtype_kind_of (map Estimated_Days d))
                 (dtype_kind_of (map Actual_Days d)).

(** The table is one whose chart of the given kind plotly draws: only
    the bar chart of the timeline page, with its two y columns, has a
    condition. *)
Definition chart_accepted (kind : AnalysisKind) (d : Dataset) : bool :=
  match kind with
  | Timeline => same_type_days d
  | _ => true
  end.


(** The world of a run once the table [d] is loaded and both select
    boxes are on the page. *)
Definition selecting {Env : Environment} (ses : Session) (s : svc_state)
    (d : Dataset) : World :=
  {| heap := [d];
     ui := [Title "Project Management Analytics";
            SidebarSelectbox "Select Analysis"
              ["Predictive Scheduling"; "Resource Optimization"; "Risk Assessment"];
            Selectbox "Select Project" (unique (column Project_ID d))];
     session := ses; calls := []; svc := s |}.

(** The page of a clicked analysis up to the request. *)
Definition charted {Env : Environment} (ses : Session) (s : svc_state)
    (d : Dataset) : World :=
  after_output (selecting ses s d)
    [Header (header_of (chosen_kind ses)); Button (button_of (chosen_kind ses));
     Spinner "Analyzing...";
     PlotlyChart (figure_of (chosen_kind ses)
                    (project_rows d (chosen_project ses d)))].

(** How often a character occurs in a text. *)
Fixpoint count_char (c : ascii) (s : string) : nat :=
  match s with
  | EmptyString => 0
  | String x s' => (if Ascii.eqb x c then 1 else 0) + count_char c s'
  end.

(** An exception outside the [Exception] hierarchy. *)
Definition keyboard_interrupt : exn :=
  {| exn_is_Exception := false; exn_str := "" |}.

(** Reading the file is interrupted. *)
Definition interrupted : Environment :=
  {| svc_state := nat; response := string;
     read_csv := fun _ => inr keyboard_interrupt;
     generate := fun _ n => (inl "On track.", S n);
     text := fun r => inl r |}.

(** A table whose estimated days are text and whose actual days are
    integers. *)
Definition mixed_days_table : Dataset :=
  [{| Project_ID := CStr "P1"; Task_Name := CStr "Design";
      Estimated_Days := CStr "five"; Actual_Days := CInt 7;
      Resource_Allocated := CStr "Team A"; Efficiency := CInt 80;
      Idle_Time := CInt 2; Risk_Type := CStr "Technical";
      Likelihood := CInt 3; Impact_Level := CInt 4 |}].

Definition mixed_on_disk : Environment :=
  {| svc_state := nat; response := string;
     read_csv := fun _ => inl mixed_days_table;
     generate := fun _ n => (inl "On track.", S n);
     text := fun r => inl r |}.



(** A task whose name has a no-break space, a backslash and a line
    break. *)
Definition odd_name : string :=
  String "160" (String "a" (String "\" (String "b" (String "010" "")))).

(** A file with the header line only. *)
Definition header_only : Environment :=
  {| svc_state := nat; response := string;
     read_csv := fun _ => inl [];
     generate := fun _ n => (inl "On track.", S n);
     text := fun r => inl r |}.

(* ================================================================== *)
(** ** The Project Filter *)

Section FilterFacts.

Lemma py_eq_true (x v : cell) : py_eq x v = true -> x = v.
Proof.
  destruct x, v; simpl; try discriminate; intros H.
  - apply String.eqb_eq in H. now subst.
  - apply Z.eqb_eq in H. now subst.
Qed.

Lemma py_eq_same (v : cell) : isnull v = false -> py_eq v v = true.
Proof.
  destruct v; simpl; try discriminate; intros _.
  - apply String.eqb_refl.
  - apply Z.eqb_refl.
Qed.

Lemma py_eq_null (x v : cell) : isnull v = true -> py_eq x v = false.
Proof.
  destruct x, v; simpl; try discriminate; reflexivity.
Qed.

(** The mask computed from the table's own column selects row by row. *)
Lemma project_rows_cons (r : ProjectRecord) (d : Dataset) (pid : cell) :
  project_rows (r :: d) pid =
  if py_eq (Project_ID r) pid then r :: project_rows d pid else project_rows d pid.
Proof. reflexivity. Qed.

Lemma project_rows_In (d : Dataset) (pid : cell) (r : ProjectRecord) :
  In r (project_rows d pid) <-> In r d /\ py_eq (Project_ID r) pid = true.
Proof.
  induction d as [|r0 d IH].
  - simpl. tauto.
  - rewrite project_rows_cons.
    destruct (py_eq (Project_ID r0) pid) eqn:E; simpl; rewrite IH.
    + split.
      * intros [<- | [H1 H2]]; auto.
      * intros [[<- | H1] H2]; auto.
    + split.
      * intros [H1 H2]; auto.
      * intros [[<- | H1] H2]; auto. congruence.
Qed.

Lemma project_rows_subsequence (d : Dataset) (pid : cell) :
  Subsequence (project_rows d pid) d.
Proof.
  induction d as [|r0 d IH].
  - constructor.
  - rewrite project_rows_cons.
    destruct (py_eq (Project_ID r0) pid); now constructor.
Qed.

Lemma Subsequence_length {A : Type} (l d : list A) :
  Subsequence l d -> List.length l <= List.length d.
Proof.
  induction 1; simpl; lia.
Qed.

Lemma project_rows_occurrences (d : Dataset) (pid : cell) (r : ProjectRecord) :
  occurrences r (project_rows d pid) =
  if py_eq (Project_ID r) pid then occurrences r d else 0.
Proof.
  unfold occurrences.
  induction d as [|r0 d IH].
  - simpl. now destruct (py_eq (Project_ID r) pid).
  - rewrite project_rows_cons. simpl.
    destruct (record_eq_dec r0 r) as [->|N].
    + destruct (py_eq (Project_ID r) pid) eqn:E.
      * simpl. destruct (record_eq_dec r r); [|congruence]. now rewrite IH.
      * exact IH.
    + destruct (py_eq (Project_ID r0) pid) eqn:E0.
      * simpl. destruct (record_eq_dec r0 r); [congruence|]. exact IH.
      * exact IH.
Qed.

Lemma project_rows_none (d : Dataset) (pid : cell) :
  (forall r, In r d -> py_eq (Project_ID r) pid = false) ->
  project_rows d pid = [].
Proof.
  induction d as [|r0 d IH]; intros H.
  - reflexivity.
  - rewrite project_rows_cons, (H r0 (or_introl eq_refl)).
    apply IH. intros r Hr. apply H. now right.
Qed.

End FilterFacts.

(** C1 (as amended).  For every table and every project identifier, the
    filter returns only records carrying that identifier, as a
    subsequence of the table (so in the table's order and no longer than
    it); and when the identifier is not a missing value, every record of
    the table carrying it is returned, as many times as it occurs. *)
Theorem project_filter_exact (d : Dataset) (pid : cell) :
  (forall r, In r (project_rows d pid) -> In r d /\ Project_ID r = pid) /\
  Subsequence (project_rows d pid) d /\
  List.length (project_rows d pid) <= List.length d /\
  (isnull pid = false ->
   forall r, Project_ID r = pid ->
     occurrences r (project_rows d pid) = occurrences r d).
Proof.
  repeat split.
  - now apply project_rows_In in H.
  - apply project_rows_In in H. now apply py_eq_true.
  - apply project_rows_subsequence.
  - apply Subsequence_length, project_rows_subsequence.
  - intros Hnn r <-. rewrite project_rows_occurrences.
    now rewrite py_eq_same.
Qed.

(** The example of the specification, with identifier P1. *)
Lemma project_filter_exact_witness :
  isnull (CStr "P1") = false /\
  Project_ID (task "P1" "Build" 10 9) = CStr "P1" /\
  occurrences (task "P1" "Build" 10 9) (project_rows example_table (CStr "P1")) =
  occurrences (task "P1" "Build" 10 9) example_table.
Proof.
  split; [reflexivity|]. split; [reflexivity|].
  apply (project_filter_exact example_table (CStr "P1")); reflexivity.
Defined.

(** C1 as stated fails at the missing-value identifier: a row whose
    Project_ID is [nan] is in the table, its identifier is the one given,
    and the filter returns nothing. *)
Lemma project_filter_nan_counterexample :
  In unassigned_task table_with_blank /\
  Project_ID unassigned_task = CNaN /\
  project_rows table_with_blank CNaN = [].
Proof.
  repeat split. simpl. auto.
Qed.

(** C2.  An identifier that occurs in no record of the table selects the
    empty sequence; the filter is a total function, so nothing is
    raised. *)
Theorem project_filter_absent (d : Dataset) (pid : cell) :
  ~ In pid (column Project_ID d) -> project_rows d pid = [].
Proof.
  intros H. apply project_rows_none. intros r Hr.
  destruct (py_eq (Project_ID r) pid) eqn:E; [|reflexivity].
  exfalso. apply H. apply py_eq_true in E. subst pid.
  unfold column. now apply in_map.
Qed.

Lemma project_filter_absent_witness :
  ~ In (CStr "P3") (column Project_ID example_table) /\
  project_rows example_table (CStr "P3") = [].
Proof.
  assert (H : ~ In (CStr "P3") (column Project_ID example_table)).
  { simpl. intros [H|[H|[H|[]]]]; discriminate. }
  split; [exact H | exact (project_filter_absent example_table (CStr "P3") H)].
Defined.

(** The example of the specification: P1 selects its two rows in order. *)
Example project_filter_example :
  project_rows example_table (CStr "P1") =
  [task "P1" "Design" 5 7; task "P1" "Build" 10 9].
Proof. reflexivity. Qed.

(* ================================================================== *)
(** ** The Prompt Builder *)

Section TextFacts.

Lemma text_app_assoc (a b c : string) : (a ++ b) ++ c = a ++ b ++ c.
Proof.
  induction a as [|x a IH]; simpl; [reflexivity | now rewrite IH].
Qed.

Lemma text_app_empty (a : string) : a ++ "" = a.
Proof.
  induction a as [|x a IH]; simpl; [reflexivity | now rewrite IH].
Qed.

Lemma InOrder_skip (pieces : list string) (s t : string) :
  InOrder pieces t -> InOrder pieces (s ++ t).
Proof.
  destruct pieces as [|p rest]; simpl; [trivial|].
  intros (before & after & -> & H).
  exists (s ++ before), after. split; [|exact H].
  now rewrite text_app_assoc.
Qed.

Lemma InOrder_here (p : string) (rest : list string) (t : string) :
  InOrder rest t -> InOrder (p :: rest) (p ++ t).
Proof.
  intros H. exists "", t. split; [reflexivity | exact H].
Qed.

(** The items of a joined list occur in the joined text in order. *)
Lemma InOrder_concat (sep : string) (items : list string) :
  InOrder items (String.concat sep items).
Proof.
  induction items as [|x [|y items] IH].
  - exact I.
  - simpl. exists "", "". split; [now rewrite text_app_empty | exact I].
  - change (String.concat sep (x :: y :: items))
      with (x ++ sep ++ String.concat sep (y :: items)).
    apply InOrder_here, InOrder_skip, IH.
Qed.

Lemma field_embeds (label : string) (vs : list cell) (rest : list string) (t : string) :
  InOrder rest t -> InOrder (repr_list vs :: rest) (field label vs ++ t).
Proof.
  intros H. unfold field.
  rewrite !text_app_assoc.
  apply InOrder_skip, InOrder_skip, InOrder_here, InOrder_skip, H.
Qed.

Lemma repr_list_lists (vs : list cell) :
  exists body, repr_list vs = "[" ++ body ++ "]" /\ InOrder (map py_repr vs) body.
Proof.
  exists (String.concat ", " (map py_repr vs)).
  split; [reflexivity | apply InOrder_concat].
Qed.

(** *** Reading back what [repr] printed *)

Lemma read_text_char (q c : ascii) (t : string) :
  q = "039"%char \/ q = "034"%char ->
  read_text q (repr_char q c ++ t) =
  match read_text q t with
  | Some (u, r) => Some (String c u, r)
  | None => None
  end.
Proof.
  intros [-> | ->];
    destruct c as [[|] [|] [|] [|] [|] [|] [|] [|]]; reflexivity.
Qed.

Lemma repr_quote_cases (s : string) :
  repr_quote s = "039"%char \/ repr_quote s = "034"%char.
Proof.
  unfold repr_quote. destruct (has_char "039" s && negb (has_char "034" s)); auto.
Qed.

Lemma read_text_body (q : ascii) (s rest : string) :
  q = "039"%char \/ q = "034"%char ->
  read_text q (repr_body q s ++ String q rest) = Some (s, rest).
Proof.
  intros Hq. induction s as [|c s IH].
  - simpl. now rewrite Ascii.eqb_refl.
  - simpl. rewrite text_app_assoc, (read_text_char q c _ Hq), IH. reflexivity.
Qed.

Lemma read_cell_str (s rest : string) :
  read_cell (repr_str s ++ rest) = Some (CStr s, rest).
Proof.
  unfold repr_str.
  pose proof (read_text_body (repr_quote s) s rest (repr_quote_cases s)) as H.
  destruct (repr_quote_cases s) as [E | E]; rewrite E in *;
    cbn [append]; rewrite text_app_assoc; cbn [append];
    unfold read_cell; cbn; now rewrite H.
Qed.

Lemma read_digits_uint (u : Decimal.uint) (rest : string) :
  ends_number rest = true ->
  read_digits (NilEmpty.string_of_uint u ++ rest) = (NilEmpty.string_of_uint u, rest).
Proof.
  intros H. induction u; cbn [NilEmpty.string_of_uint append read_digits];
    try (change (is_digit _) with true; cbv iota; now rewrite IHu).
  destruct rest as [|c rest]; [reflexivity|].
  cbn [read_digits]. cbn [ends_number] in H.
  now destruct (is_digit c).
Qed.

Lemma string_of_uint_nonnil (u : Decimal.uint) :
  u <> Decimal.Nil -> NilZero.string_of_uint u = NilEmpty.string_of_uint u.
Proof. destruct u; congruence || reflexivity. Qed.

Lemma string_of_uint_digit (u : Decimal.uint) :
  u <> Decimal.Nil ->
  exists c t, NilEmpty.string_of_uint u = String c t /\ is_digit c = true.
Proof.
  destruct u; [congruence|..]; intros _; eexists _, _; split; reflexivity.
Qed.

Lemma read_number_uint (u : Decimal.uint) (rest : string) :
  u <> Decimal.Nil -> ends_number rest = true ->
  read_number (NilEmpty.string_of_uint u ++ rest) = (NilEmpty.string_of_uint u, rest).
Proof.
  intros Hu H.
  destruct (string_of_uint_digit u Hu) as (c & t & E & Hc).
  pose proof (read_digits_uint u rest H) as R. rewrite E in *.
  cbn [append] in *. unfold read_number.
  replace (Ascii.eqb c "-") with false; [exact R|].
  destruct c as [[|] [|] [|] [|] [|] [|] [|] [|]]; try reflexivity; discriminate.
Qed.

Lemma read_cell_int (z : Z) (rest : string) :
  ends_number rest = true ->
  read_cell (repr_int z ++ rest) = Some (CInt z, rest).
Proof.
  intros H. unfold read_cell, repr_int.
  assert (Hnn : forall p, Pos.to_uint p <> Decimal.Nil)
    by apply DecimalPos.Unsigned.to_uint_nonnil.
  assert (R : read_number (NilZero.string_of_int (Z.to_int z) ++ rest) =
              (NilZero.string_of_int (Z.to_int z), rest)).
  { destruct z as [|p|p]; cbn [Z.to_int NilZero.string_of_int].
    - apply (read_number_uint (Decimal.D0 Decimal.Nil)); [discriminate | exact H].
    - rewrite string_of_uint_nonnil by apply Hnn.
      apply read_number_uint; [apply Hnn | exact H].
    - rewrite string_of_uint_nonnil by apply Hnn.
      change (String "-" ?a ++ rest) with (String "-" (a ++ rest)).
      cbn [append read_number]. change (Ascii.eqb "-" "-") with true. cbv iota.
      now rewrite read_digits_uint. }
  rewrite R.
  assert (I : NilZero.int_of_string (NilZero.string_of_int (Z.to_int z)) = Some (Z.to_int z)).
  { apply NilZero.isi; destruct z; cbn [Z.to_int]; try discriminate;
      intros F; injection F; apply Hnn. }
  destruct (NilZero.string_of_int (Z.to_int z)) as [|c t] eqn:E.
  - discriminate I.
  - rewrite I. now rewrite DecimalZ.of_to.
Qed.

Lemma read_cell_repr (v : cell) (rest : string) :
  ends_number rest = true ->
  read_cell (py_repr v ++ rest) = Some (v, rest).
Proof.
  intros H. destruct v; cbn [py_repr].
  - apply read_cell_str.
  - now apply read_cell_int.
  - reflexivity.
  - reflexivity.
Qed.

Lemma text_length_app (a b : string) :
  String.length (a ++ b) = String.length a + String.length b.
Proof.
  induction a as [|c a IH]; simpl; [reflexivity | now rewrite IH].
Qed.

Lemma py_repr_nonempty (v : cell) : 1 <= String.length (py_repr v).
Proof.
  destruct v as [s|z| |]; cbn [py_repr]; try (simpl; lia).
  unfold repr_int.
  assert (Hnn : forall p, Pos.to_uint p <> Decimal.Nil)
    by apply DecimalPos.Unsigned.to_uint_nonnil.
  destruct z as [|p|p]; cbn [Z.to_int NilZero.string_of_int]; try (simpl; lia).
  rewrite string_of_uint_nonnil by apply Hnn.
  destruct (string_of_uint_digit _ (Hnn p)) as (c & t & -> & _). simpl. lia.
Qed.

Lemma joined_length (vs : list cell) :
  List.length vs <= String.length (String.concat ", " (map py_repr vs)).
Proof.
  induction vs as [|v [|v' vs] IH].
  - simpl. lia.
  - cbn [map String.concat List.length]. apply py_repr_nonempty.
  - change (String.concat ", " (map py_repr (v :: v' :: vs)))
      with (py_repr v ++ ", " ++ String.concat ", " (map py_repr (v' :: vs))).
    rewrite !text_length_app. pose proof (py_repr_nonempty v).
    cbn [List.length] in *. lia.
Qed.

Lemma read_items_joined (vs : list cell) (v : cell) (fuel : nat) :
  List.length (v :: vs) <= fuel ->
  read_items fuel (String.concat ", " (map py_repr (v :: vs)) ++ "]") = Some (v :: vs).
Proof.
  revert v fuel. induction vs as [|v' vs IH]; intros v fuel Hf;
    (destruct fuel as [|fuel]; [simpl in Hf; lia|]).
  - cbn [map String.concat read_items].
    now rewrite read_cell_repr.
  - change (String.concat ", " (map py_repr (v :: v' :: vs)))
      with (py_repr v ++ ", " ++ String.concat ", " (map py_repr (v' :: vs))).
    rewrite !text_app_assoc. cbn [read_items].
    rewrite read_cell_repr by reflexivity.
    cbn [append strip]. change (Ascii.eqb "]" ",") with false.
    change (Ascii.eqb "," ",") with true. change (Ascii.eqb " " " ") with true.
    cbv iota. rewrite IH; [reflexivity|]. cbn [List.length] in *. lia.
Qed.

Lemma read_list_repr (vs : list cell) : read_list (repr_list vs) = Some vs.
Proof.
  unfold repr_list, read_list. cbn [append strip].
  change (Ascii.eqb "[" "[") with true. cbv iota.
  destruct vs as [|v vs]; [reflexivity|].
  set (joined := String.concat ", " (map py_repr (v :: vs))).
  pose proof (joined_length (v :: vs)) as J. fold joined in J.
  destruct (String.eqb_spec (joined ++ "]") "]") as [E|_].
  - apply (f_equal String.length) in E. rewrite text_length_app in E.
    cbn [List.length String.length] in *. lia.
  - apply read_items_joined. rewrite text_length_app.
    cbn [List.length String.length] in *. lia.
Qed.

Lemma build_prompt_lists (kind : AnalysisKind) (rows : Dataset) :
  InOrder (map (fun c => repr_list (column c rows)) (kind_columns kind))
          (build_prompt kind rows).
Proof.
  destruct kind; unfold build_prompt, kind_columns; cbn [map];
    unfold timeline_prompt, resource_prompt, risk_prompt;
    apply InOrder_skip, InOrder_skip;
    repeat apply field_embeds; exact I.
Qed.

End TextFacts.

(** C3.  For every record sequence and every kind, the prompt contains,
    one after the other in template order, the list literal of each of
    the kind's three columns, that is the printed list of the values the
    records have in that column, record by record; each literal is a
    bracketed text in which the [repr]s of these values occur one after
    the other in the order of the records; and read back as a list, each
    literal gives exactly these values in that order. *)
Theorem prompt_embeds_columns (kind : AnalysisKind) (rows : Dataset) :
  InOrder (map (fun c => repr_list (map c rows)) (kind_columns kind))
          (build_prompt kind rows) /\
  Forall (fun c =>
            (exists body,
               repr_list (map c rows) = "[" ++ body ++ "]" /\
               InOrder (map (fun r => py_repr (c r)) rows) body) /\
            read_list (repr_list (map c rows)) = Some (map c rows))
         (kind_columns kind).
Proof.
  split.
  - exact (build_prompt_lists kind rows).
  - destruct kind; unfold kind_columns; repeat constructor;
      try apply read_list_repr;
      match goal with |- exists body, repr_list (map ?c rows) = _ /\ _ =>
        destruct (repr_list_lists (map c rows)) as (body & E & Hin);
        exists body; split; [exact E | now rewrite map_map in Hin]
      end.
Qed.

(** Two rows of one project, the second with a name that [repr] prints
    with escapes and a negative estimate: the three literals as they
    stand in the prompt, and the values each one reads back to. *)
Lemma prompt_embeds_columns_witness :
  let rows := [task "P1" "Design" 5 7; task "P1" odd_name (-3) 9] in
  InOrder ["['Design', '\xa0a\\b\n']"; "[5, -3]"; "[7, 9]"]
          (build_prompt Timeline rows) /\
  read_list "['Design', '\xa0a\\b\n']" = Some [CStr "Design"; CStr odd_name] /\
  read_list "[5, -3]" = Some [CInt 5; CInt (-3)] /\
  read_list "[7, 9]" = Some [CInt 7; CInt 9].
Proof.
  intros rows.
  destruct (prompt_embeds_columns Timeline rows) as [Hin Hall].
  exact (conj Hin
          (conj (proj2 (Forall_inv Hall))
             (conj (proj2 (Forall_inv (Forall_inv_tail Hall)))
                   (proj2 (Forall_inv (Forall_inv_tail (Forall_inv_tail Hall))))))).
Defined.

(** The timeline prompt of project P1 in the example table. *)
Example timeline_prompt_example :
  build_prompt Timeline (project_rows example_table (CStr "P1")) = "
        Analyze this project timeline data:
        Tasks: ['Design', 'Build']
        Estimated Days: [5, 10]
        Actual Days: [7, 9]
        
        Provide:
        1. Timeline prediction based on historical data
        2. Potential delays and bottlenecks
        3. Schedule optimization suggestions
        ".
Proof. reflexivity. Qed.

(** C5.  For the empty record sequence and every kind the builder
    returns the template with every embedded list printed as [[]]; it is
    a total function, so nothing is raised.  The same prompt results for
    an undefined identifier ([None]), which selects no row of any
    table. *)
Theorem prompt_of_no_rows (kind : AnalysisKind) :
  build_prompt kind [] = empty_prompt kind /\
  Forall (fun c => repr_list (column c []) = "[]") (kind_columns kind) /\
  InOrder ["[]"; "[]"; "[]"] (build_prompt kind []) /\
  (forall d : Dataset, build_prompt kind (project_rows d CNone) = empty_prompt kind).
Proof.
  split; [now destruct kind|].
  split; [destruct kind; repeat constructor|].
  split.
  { destruct kind.
    - exact (build_prompt_lists Timeline []).
    - exact (build_prompt_lists Resource []).
    - exact (build_prompt_lists Risk []). }
  intros d. rewrite project_rows_none; [now destruct kind|].
  intros r _. now apply py_eq_null.
Qed.

(* ================================================================== *)
(** ** The analysis operations *)

Section AnalysisFacts.

Context {Env : Environment}.

(** What a method of [ProjectAnalytics] does, in one equation: it builds
    the prompt of its kind from the filtered rows, makes one request and
    hands back the text or the exception. *)
Lemma analysis_run (kind : AnalysisKind) (self : ProjectAnalytics) (pid : cell)
    (w : World) (d : Dataset) :
  nth_error (heap w) (df self) = Some d ->
  let prompt := build_prompt kind (project_rows d pid) in
  analysis kind self pid w =
  (match fst (generate prompt (svc w)) with
   | inl resp => match text resp with
                 | inl t => Ret t
                 | inr e => Raise e
                 end
   | inr e => Raise e
   end,
   after_request w prompt (snd (generate prompt (svc w)))).
Proof.
  intros H prompt. subst prompt.
  destruct kind;
    unfold analysis, analyze_timeline, optimize_resources, assess_risks,
      bind, deref, build_prompt;
    rewrite H; unfold generate_content;
    match goal with |- context [generate ?p ?s] => destruct (generate p s) as [[resp|e] s'] end;
    cbn [fst snd]; try reflexivity;
    unfold get_text; destruct (text resp); reflexivity.
Qed.

Lemma analysis_dangling (kind : AnalysisKind) (self : ProjectAnalytics) (pid : cell)
    (w : World) :
  nth_error (heap w) (df self) = None ->
  snd (analysis kind self pid w) = w.
Proof.
  intros H.
  destruct kind;
    unfold analysis, analyze_timeline, optimize_resources, assess_risks, bind, deref;
    rewrite H; reflexivity.
Qed.

(** *** Relations every step of the dashboard respects

    A relation between worlds that is reflexive and transitive and that
    holds across more output and across a request holds across the
    analysis operations, the pages and the dashboard. *)

Section Respect.

Variable R : World -> World -> Prop.
Hypothesis R_refl : forall w, R w w.
Hypothesis R_trans : forall w1 w2 w3, R w1 w2 -> R w2 w3 -> R w1 w3.
Hypothesis R_output : forall w evs, R w (after_output w evs).
Hypothesis R_request : forall w prompt s', R w (after_request w prompt s').

Lemma respects_ret {A : Type} (a : A) : respects R (ret a).
Proof. intros w. apply R_refl. Qed.

Lemma respects_bind {A B : Type} (m : M A) (k : A -> M B) :
  respects R m -> (forall a, respects R (k a)) -> respects R (bind m k).
Proof.
  intros Hm Hk w. unfold bind. specialize (Hm w).
  destruct (m w) as [[a|e|] w']; cbn [snd] in *; try assumption.
  eapply R_trans; [exact Hm | apply Hk].
Qed.

Lemma respects_emit (ev : UIEvent) : respects R (emit ev).
Proof. intros w. apply R_output. Qed.

Lemma respects_button (label : string) : respects R (st_button label).
Proof. intros w. apply (R_output w [Button label]). Qed.

Lemma respects_sidebar (label : string) (options : list string) :
  respects R (st_sidebar_selectbox label options).
Proof. intros w. apply (R_output w [SidebarSelectbox label options]). Qed.

Lemma respects_selectbox (label : string) (options : list cell) :
  respects R (st_selectbox label options).
Proof. intros w. apply (R_output w [Selectbox label options]). Qed.

Lemma respects_deref (r : ref) : respects R (deref r).
Proof.
  intros w. unfold deref. destruct (nth_error (heap w) r); apply R_refl.
Qed.

Lemma respects_analysis (kind : AnalysisKind) (self : ProjectAnalytics) (pid : cell) :
  respects R (analysis kind self pid).
Proof.
  intros w. destruct (nth_error (heap w) (df self)) as [d|] eqn:E.
  - rewrite (analysis_run kind self pid w d E). apply R_request.
  - rewrite analysis_dangling by exact E. apply R_refl.
Qed.

Lemma respects_px_bar (types : string -> option dtype_kind) (data : Dataset)
    (x : string) (y : list string) (title barmode : string) :
  respects R (px_bar types data x y title barmode).
Proof.
  intros w. unfold px_bar.
  destruct (types x); [destruct (kinds_of types y) as [ks|];
    [destruct (one_kind ks)|]|]; apply R_refl.
Qed.

Lemma respects_page (kind : AnalysisKind) (r : ref) (a : ProjectAnalytics) (pid : cell) :
  respects R (page kind r a pid).
Proof.
  destruct kind; unfold page, predictive_scheduling, resource_optimization,
    risk_assessment, st_header, st_spinner, st_plotly_chart, st_subheader, st_write;
    (apply respects_bind; [apply respects_emit | intros _]);
    (apply respects_bind; [apply respects_button | intros [|]]);
    try apply respects_ret;
    (apply respects_bind; [apply respects_emit | intros _]);
    (apply respects_bind; [apply respects_deref | intros d]).
  - apply respects_bind; [apply respects_px_bar | intros fig].
    apply respects_bind; [apply respects_emit | intros _].
    apply respects_bind; [exact (respects_analysis Timeline a pid) | intros t].
    apply respects_bind; [apply respects_emit | intros _; apply respects_emit].
  - apply respects_bind; [apply respects_emit | intros _].
    apply respects_bind; [exact (respects_analysis Resource a pid) | intros t].
    apply respects_bind; [apply respects_emit | intros _; apply respects_emit].
  - apply respects_bind; [apply respects_emit | intros _].
    apply respects_bind; [exact (respects_analysis Risk a pid) | intros t].
    apply respects_bind; [apply respects_emit | intros _; apply respects_emit].
Qed.

Lemma respects_dashboard (r : ref) : respects R (dashboard r).
Proof.
  unfold dashboard.
  apply respects_bind; [apply respects_sidebar | intros analysis_type].
  apply respects_bind; [apply respects_deref | intros d].
  apply respects_bind; [apply respects_selectbox | intros selected_project].
  destruct (str_is analysis_type "Predictive Scheduling");
    [exact (respects_page Timeline r (init r) selected_project)|].
  destruct (str_is analysis_type "Resource Optimization");
    [exact (respects_page Resource r (init r) selected_project)|].
  exact (respects_page Risk r (init r) selected_project).
Qed.

End Respect.

Lemma keeps_analysis (kind : AnalysisKind) (self : ProjectAnalytics) (pid : cell) :
  respects same_store (analysis kind self pid).
Proof.
  apply respects_analysis; unfold same_store; intros; subst; try reflexivity.
Qed.

Lemma same_store_trans (w1 w2 w3 : World) :
  same_store w1 w2 -> same_store w2 w3 -> same_store w1 w3.
Proof. unfold same_store. congruence. Qed.

Lemma keeps_page (kind : AnalysisKind) (r : ref) (a : ProjectAnalytics) (pid : cell) :
  respects same_store (page kind r a pid).
Proof.
  apply respects_page; try (intros; reflexivity). exact same_store_trans.
Qed.

Lemma keeps_dashboard (r : ref) : respects same_store (dashboard r).
Proof.
  apply respects_dashboard; try (intros; reflexivity). exact same_store_trans.
Qed.

Lemma more_output_trans (w1 w2 w3 : World) :
  more_output w1 w2 -> more_output w2 w3 -> more_output w1 w3.
Proof.
  intros [e1 H1] [e2 H2]. exists (e1 ++ e2)%list.
  now rewrite H2, H1, app_assoc.
Qed.

(** The dashboard is the two select boxes followed by the chosen page. *)
Lemma dashboard_run (r : ref) (w : World) (d : Dataset) :
  nth_error (heap w) r = Some d ->
  dashboard r w =
  page (chosen_kind (session w)) r (init r) (chosen_project (session w) d)
    (after_output w
       [SidebarSelectbox "Select Analysis"
          ["Predictive Scheduling"; "Resource Optimization"; "Risk Assessment"];
        Selectbox "Select Project" (unique (column Project_ID d))]).
Proof.
  intros H.
  unfold dashboard, bind, st_sidebar_selectbox, st_selectbox, emit, bind, deref.
  cbn [heap session ui calls svc]. rewrite H.
  cbn [heap session ui calls svc].
  unfold chosen_kind, chosen_project, after_output.
  rewrite <- app_assoc. cbn [app].
  destruct (analysis_index (session w)) as [|[|[|n]]]; try reflexivity.
  cbn [nth_error str_is]. destruct n; reflexivity.
Qed.

(** *** Stepping through a computation *)

Lemma emit_run (ev : UIEvent) (w : World) :
  emit ev w = (Ret tt, after_output w [ev]).
Proof. reflexivity. Qed.

Lemma bind_emit {B : Type} (ev : UIEvent) (k : unit -> M B) (w : World) :
  bind (emit ev) k w = k tt (after_output w [ev]).
Proof. reflexivity. Qed.

Lemma bind_button {B : Type} (label : string) (k : bool -> M B) (w : World) :
  bind (st_button label) k w =
  k (clicked (session w) label) (after_output w [Button label]).
Proof. reflexivity. Qed.

Lemma bind_deref {B : Type} (r : ref) (k : Dataset -> M B) (w : World) (d : Dataset) :
  nth_error (heap w) r = Some d -> bind (deref r) k w = k d w.
Proof. intros H. unfold bind, deref. now rewrite H. Qed.

Lemma after_output_more (w : World) (evs evs' : list UIEvent) :
  after_output (after_output w evs) evs' = after_output w (evs ++ evs').
Proof. unfold after_output. cbn [heap ui session calls svc]. now rewrite app_assoc. Qed.

Lemma fig_data_figure_of (kind : AnalysisKind) (rows : Dataset) :
  fig_data (figure_of kind rows) = rows.
Proof. now destruct kind. Qed.

(** What [px.bar] does with the two duration columns of a table. *)
Lemma px_bar_days (d data : Dataset) (title barmode : string) (w : World) :
  px_bar (dtypes d) data "Task_Name" ["Estimated_Days"; "Actual_Days"]
    title barmode w =
  if same_type_days d
  then (Ret (bar_figure data "Task_Name" ["Estimated_Days"; "Actual_Days"]
               title barmode), w)
  else (Raise wide_form_error, w).
Proof.
  unfold px_bar, dtypes, same_type_days, kinds_of.
  change (column_named "Task_Name") with (Some Task_Name).
  change (column_named "Estimated_Days") with (Some Estimated_Days).
  change (column_named "Actual_Days") with (Some Actual_Days).
  unfold column. cbn [one_kind forallb]. rewrite andb_true_r.
  now destruct (dtype_kind_eqb _ _).
Qed.

(** A page whose button was not clicked shows its header and the button
    and does nothing else. *)
Lemma page_idle (kind : AnalysisKind) (r : ref) (a : ProjectAnalytics) (pid : cell)
    (w : World) :
  clicked (session w) (button_of kind) = false ->
  page kind r a pid w =
  (Ret tt, after_output w [Header (header_of kind); Button (button_of kind)]).
Proof.
  intros Hc.
  destruct kind;
    unfold page, predictive_scheduling, resource_optimization, risk_assessment;
    unfold st_header;
    rewrite bind_emit, bind_button; cbn [session after_output];
    unfold button_of in Hc; rewrite Hc;
    unfold ret; rewrite after_output_more; reflexivity.
Qed.

(** A page whose button was clicked, on a table whose chart plotly
    draws: header, button, spinner and chart of the filtered rows, then
    the analysis of the same kind, then the sub-header and the text. *)
Lemma page_charted (kind : AnalysisKind) (r : ref) (a : ProjectAnalytics) (pid : cell)
    (w : World) (d : Dataset) :
  nth_error (heap w) r = Some d ->
  clicked (session w) (button_of kind) = true ->
  chart_accepted kind d = true ->
  page kind r a pid w =
  bind (analysis kind a pid)
       (fun t => bind (st_subheader (result_header_of kind)) (fun _ => st_write t))
       (after_output w [Header (header_of kind); Button (button_of kind);
                        Spinner "Analyzing...";
                        PlotlyChart (figure_of kind (project_rows d pid))]).
Proof.
  intros H Hc Ha.
  destruct kind;
    unfold page, predictive_scheduling, resource_optimization, risk_assessment;
    unfold st_header, st_spinner, st_plotly_chart;
    rewrite bind_emit, bind_button; cbn [session after_output];
    unfold button_of in Hc; rewrite Hc;
    rewrite bind_emit; rewrite (bind_deref r _ _ d) by exact H.
  - unfold bind at 1. rewrite px_bar_days.
    cbn [chart_accepted] in Ha. rewrite Ha.
    now rewrite bind_emit, !after_output_more.
  - now rewrite bind_emit, !after_output_more.
  - now rewrite bind_emit, !after_output_more.
Qed.

(** A page whose button was clicked, on a table whose chart plotly
    refuses: the run ends with plotly's exception after the spinner. *)
Lemma page_rejected (kind : AnalysisKind) (r : ref) (a : ProjectAnalytics) (pid : cell)
    (w : World) (d : Dataset) :
  nth_error (heap w) r = Some d ->
  clicked (session w) (button_of kind) = true ->
  chart_accepted kind d = false ->
  page kind r a pid w =
  (Raise wide_form_error,
   after_output w [Header (header_of kind); Button (button_of kind);
                   Spinner "Analyzing..."]).
Proof.
  intros H Hc Ha. destruct kind; try discriminate Ha.
  unfold page, predictive_scheduling, st_header, st_spinner.
  rewrite bind_emit, bind_button; cbn [session after_output].
  unfold button_of in Hc. rewrite Hc.
  rewrite bind_emit. rewrite (bind_deref r _ _ d) by exact H.
  unfold bind at 1. rewrite px_bar_days.
  cbn [chart_accepted] in Ha. rewrite Ha.
  now rewrite !after_output_more.
Qed.

End AnalysisFacts.

(* ================================================================== *)
(** ** The script *)

Section ScriptFacts.

Context {Env : Environment}.

(** The world in which the dashboard starts once the table [d] is
    loaded. *)
Lemma main_loaded (ses : Session) (s : svc_state) (d : Dataset) :
  read_csv "project_data.csv" = inl d ->
  main (start ses s) =
  dashboard 0 {| heap := [d]; ui := [Title "Project Management Analytics"];
                 session := ses; calls := []; svc := s |}.
Proof.
  intros H. unfold main, st_title. rewrite bind_emit.
  unfold bind at 1. unfold load_data, try_except. unfold bind at 1.
  unfold pd_read_csv. rewrite H. reflexivity.
Qed.

Lemma main_not_loaded (ses : Session) (s : svc_state) (e : exn) :
  read_csv "project_data.csv" = inr e ->
  exn_is_Exception e = true ->
  main (start ses s) =
  (Halt, after_output (start ses s)
           [Title "Project Management Analytics";
            ErrorBox ("Error loading data: " ++ exn_str e)]).
Proof.
  intros H He. unfold main, st_title. rewrite bind_emit.
  unfold bind at 1. unfold load_data, try_except. unfold bind at 1.
  unfold pd_read_csv. rewrite H, He. reflexivity.
Qed.

(** An exception that [except Exception] does not catch ends the run
    right after the title. *)
Lemma main_uncaught (ses : Session) (s : svc_state) (e : exn) :
  read_csv "project_data.csv" = inr e ->
  exn_is_Exception e = false ->
  main (start ses s) =
  (Raise e, after_output (start ses s) [Title "Project Management Analytics"]).
Proof.
  intros H He. unfold main, st_title. rewrite bind_emit.
  unfold bind at 1. unfold load_data, try_except. unfold bind at 1.
  unfold pd_read_csv. rewrite H, He. reflexivity.
Qed.

(** With the table loaded, a run is the page of the selected analysis
    for the selected project, below the title and the select boxes. *)
Lemma main_selected (ses : Session) (s : svc_state) (d : Dataset) :
  read_csv "project_data.csv" = inl d ->
  main (start ses s) =
  page (chosen_kind ses) 0 (init 0) (chosen_project ses d) (selecting ses s d).
Proof.
  intros H. rewrite (main_loaded ses s d H).
  match goal with |- context [dashboard 0 ?w0] =>
    rewrite (dashboard_run 0 w0 d eq_refl)
  end.
  reflexivity.
Qed.

(** A clicked run on a table whose chart is drawn, up to the outcome of
    the request. *)
Lemma main_clicked (ses : Session) (s : svc_state) (d : Dataset) :
  read_csv "project_data.csv" = inl d ->
  clicked ses (button_of (chosen_kind ses)) = true ->
  chart_accepted (chosen_kind ses) d = true ->
  let kind := chosen_kind ses in
  let prompt := build_prompt kind (project_rows d (chosen_project ses d)) in
  let w2 := after_request (charted ses s d) prompt (snd (generate prompt s)) in
  main (start ses s) =
  match fst (generate prompt s) with
  | inl resp =>
      match text resp with
      | inl t => (Ret tt, after_output w2 [Subheader (result_header_of kind); Write t])
      | inr e => (Raise e, w2)
      end
  | inr e => (Raise e, w2)
  end.
Proof.
  intros H Hc Ha kind prompt w2.
  rewrite (main_selected ses s d H).
  rewrite (page_charted (chosen_kind ses) 0 (init 0) (chosen_project ses d)
             (selecting ses s d) d eq_refl Hc Ha).
  fold kind. change (after_output (selecting ses s d) _) with (charted ses s d).
  unfold bind at 1.
  rewrite (analysis_run kind (init 0) _ (charted ses s d) d eq_refl).
  change (svc (charted ses s d)) with s. fold prompt. fold w2.
  destruct (fst (generate prompt s)) as [resp|e]; [|reflexivity].
  destruct (text resp) as [t|e]; [|reflexivity].
  unfold st_subheader, st_write.
  now rewrite bind_emit, emit_run, after_output_more.
Qed.

(** A clicked run on a table whose chart plotly refuses. *)
Lemma main_rejected (ses : Session) (s : svc_state) (d : Dataset) :
  read_csv "project_data.csv" = inl d ->
  clicked ses (button_of (chosen_kind ses)) = true ->
  chart_accepted (chosen_kind ses) d = false ->
  main (start ses s) =
  (Raise wide_form_error,
   after_output (selecting ses s d)
     [Header (header_of (chosen_kind ses)); Button (button_of (chosen_kind ses));
      Spinner "Analyzing..."]).
Proof.
  intros H Hc Ha. rewrite (main_selected ses s d H).
  exact (page_rejected (chosen_kind ses) 0 (init 0) (chosen_project ses d)
           (selecting ses s d) d eq_refl Hc Ha).
Qed.

(** What a clicked run leaves when the chart is drawn: one request, and
    the page up to the chart followed by output without any further
    chart. *)
Lemma main_clicked_world (ses : Session) (s : svc_state) (d : Dataset) :
  read_csv "project_data.csv" = inl d ->
  clicked ses (button_of (chosen_kind ses)) = true ->
  chart_accepted (chosen_kind ses) d = true ->
  let final := snd (main (start ses s)) in
  calls final =
    [build_prompt (chosen_kind ses) (project_rows d (chosen_project ses d))] /\
  exists evs : list UIEvent,
    ui final = (ui (charted ses s d) ++ evs)%list /\
    forall fig, ~ In (PlotlyChart fig) evs.
Proof.
  intros H Hc Ha final. subst final. rewrite (main_clicked ses s d H Hc Ha).
  destruct (fst (generate _ s)) as [resp|e]; [destruct (text resp) as [t|e]|];
    cbn [snd after_output after_request calls ui]; (split; [reflexivity|]).
  - eexists. split; [reflexivity|].
    intros fig [F|[F|[]]]; discriminate.
  - exists []. split; [now rewrite app_nil_r | intros fig []].
  - exists []. split; [now rewrite app_nil_r | intros fig []].
Qed.

(** C4.  The prompt an analysis operation sends is a function of the
    kind and of the filtered rows alone: two runs in any two worlds
    (other output so far, other call history, other service state, even
    other tables and identifiers) whose filtered rows agree send the
    identical prompt.  Up to the request nothing is read or written: each
    run leaves the store, the page and the widget state as they were,
    adds exactly that one prompt to the call log, and the service is
    entered in the state it had before the operation. *)
Theorem prompt_builder_deterministic (kind : AnalysisKind)
    (self1 self2 : ProjectAnalytics) (pid1 pid2 : cell) (w1 w2 : World)
    (d1 d2 : Dataset) :
  nth_error (heap w1) (df self1) = Some d1 ->
  nth_error (heap w2) (df self2) = Some d2 ->
  project_rows d1 pid1 = project_rows d2 pid2 ->
  let prompt := build_prompt kind (project_rows d1 pid1) in
  snd (analysis kind self1 pid1 w1) =
    after_request w1 prompt (snd (generate prompt (svc w1))) /\
  snd (analysis kind self2 pid2 w2) =
    after_request w2 prompt (snd (generate prompt (svc w2))).
Proof.
  intros H1 H2 Hrows prompt. subst prompt. split.
  - now rewrite (analysis_run kind self1 pid1 w1 d1 H1).
  - rewrite (analysis_run kind self2 pid2 w2 d2 H2). now rewrite Hrows.
Qed.

(** C6.  Nothing mutates the table after the load: every analysis
    operation, in every world, leaves every DataFrame object of the store
    (hence every field of every record) as it was; so does the whole
    dashboard, with its select boxes, the filtering for the chart and the
    analysis; and a run of the script ends with the store holding
    exactly the table that was read. *)
Theorem dataset_never_mutated :
  (forall kind self pid w, heap (snd (analysis kind self pid w)) = heap w) /\
  (forall kind r a pid w, heap (snd (page kind r a pid w)) = heap w) /\
  (forall r w, heap (snd (dashboard r w)) = heap w) /\
  (forall ses s,
     heap (snd (main (start ses s))) =
     match read_csv "project_data.csv" with
     | inl d => [d]
     | inr _ => []
     end).
Proof.
  split; [exact keeps_analysis|].
  split; [exact keeps_page|].
  split; [exact keeps_dashboard|].
  intros ses s. destruct (read_csv "project_data.csv") as [d|e] eqn:E.
  - rewrite (main_loaded ses s d E). now rewrite keeps_dashboard.
  - unfold main, st_title. rewrite bind_emit.
    unfold bind at 1. unfold load_data, try_except. unfold bind at 1.
    unfold pd_read_csv. rewrite E.
    destruct (exn_is_Exception e); reflexivity.
Qed.

(** C7.  When reading the input file raises an exception, [load_data]
    shows the error on the page and returns [None], and [main] stops
    right there: the run halts with the title and the error as its whole
    output, an empty store and an empty call log, so no analytics object
    was built on a table and no request was served. *)
Theorem load_failure_halts (e : exn) :
  read_csv "project_data.csv" = inr e ->
  exn_is_Exception e = true ->
  (forall w,
     load_data w =
     (Ret None, after_output w [ErrorBox ("Error loading data: " ++ exn_str e)])) /\
  (forall ses s,
     main (start ses s) =
     (Halt, {| heap := [];
               ui := [Title "Project Management Analytics";
                      ErrorBox ("Error loading data: " ++ exn_str e)];
               session := ses; calls := []; svc := s |})).
Proof.
  intros H He. split.
  - intros w. unfold load_data, try_except. unfold bind at 1.
    unfold pd_read_csv. rewrite H, He. reflexivity.
  - intros ses s. now rewrite (main_not_loaded ses s e H He).
Qed.

(** C8.  An analysis operation makes one request with its prompt.  When
    the request fails, the operation ends with that very exception and
    the world shows the single request (no second attempt, no substitute
    result); when it succeeds, the operation returns the text of the
    response (or the exception that reading the text raises). *)
Theorem service_failure_propagates (kind : AnalysisKind) (self : ProjectAnalytics)
    (pid : cell) (w : World) (d : Dataset) :
  nth_error (heap w) (df self) = Some d ->
  let prompt := build_prompt kind (project_rows d pid) in
  (forall e s', generate prompt (svc w) = (inr e, s') ->
     analysis kind self pid w = (Raise e, after_request w prompt s')) /\
  (forall resp s' t, generate prompt (svc w) = (inl resp, s') ->
     text resp = inl t ->
     analysis kind self pid w = (Ret t, after_request w prompt s')) /\
  (forall resp s' e, generate prompt (svc w) = (inl resp, s') ->
     text resp = inr e ->
     analysis kind self pid w = (Raise e, after_request w prompt s')).
Proof.
  intros H prompt. pose proof (analysis_run kind self pid w d H) as E.
  cbv zeta in E. fold prompt in E.
  repeat split.
  - intros e s' G. rewrite E, G. reflexivity.
  - intros resp s' t G T. rewrite E, G. cbn [fst snd]. now rewrite T.
  - intros resp s' e G T. rewrite E, G. cbn [fst snd]. now rewrite T.
Qed.

(** C10.  In a run of the script that loaded a table and in which the
    button of the selected analysis was clicked, the rows drawn in the
    chart and the rows behind the prompt are the same rows, those the
    filter selects for the selected project: every chart on the page
    shows exactly these rows, and every request sent is the prompt of the
    selected kind built from exactly these rows, sent after their chart
    was drawn.  When plotly draws the chart of the table (always, except
    for a timeline whose two duration columns differ in type), the chart
    is on the page and the one request is that prompt. *)
Theorem chart_and_prompt_rows_agree (ses : Session) (s : svc_state) (d : Dataset) :
  read_csv "project_data.csv" = inl d ->
  clicked ses (button_of (chosen_kind ses)) = true ->
  let rows := project_rows d (chosen_project ses d) in
  let final := snd (main (start ses s)) in
  (forall fig, In (PlotlyChart fig) (ui final) -> fig_data fig = rows) /\
  (forall prompt, In prompt (calls final) ->
     prompt = build_prompt (chosen_kind ses) rows /\
     exists fig, In (PlotlyChart fig) (ui final) /\ fig_data fig = rows) /\
  (chart_accepted (chosen_kind ses) d = true ->
   (exists fig, In (PlotlyChart fig) (ui final) /\ fig_data fig = rows) /\
   calls final = [build_prompt (chosen_kind ses) rows]).
Proof.
  intros H Hc rows final. subst final.
  destruct (chart_accepted (chosen_kind ses) d) eqn:Ha.
  - destruct (main_clicked_world ses s d H Hc Ha) as (Hcalls & evs & Hui & Hevs).
    rewrite Hui, Hcalls.
    assert (Hdrawn : In (PlotlyChart (figure_of (chosen_kind ses) rows))
                        (ui (charted ses s d) ++ evs)).
    { apply in_or_app. left. subst rows. simpl. tauto. }
    assert (Hall : forall fig, In (PlotlyChart fig) (ui (charted ses s d) ++ evs) ->
                               fig_data fig = rows).
    { intros fig Hin. apply in_app_or in Hin. destruct Hin as [Hin|Hin].
      - simpl in Hin.
        repeat (destruct Hin as [Hin|Hin]; [try discriminate|]); [|contradiction].
        injection Hin as <-. apply fig_data_figure_of.
      - now apply Hevs in Hin. }
    split; [exact Hall|]. split.
    + intros prompt [<-|[]]. split; [reflexivity|].
      exists (figure_of (chosen_kind ses) rows).
      split; [exact Hdrawn | apply fig_data_figure_of].
    + intros _. split; [|reflexivity].
      exists (figure_of (chosen_kind ses) rows).
      split; [exact Hdrawn | apply fig_data_figure_of].
  - rewrite (main_rejected ses s d H Hc Ha).
    cbn [snd after_output selecting ui calls app].
    split; [|split].
    + intros fig Hin. simpl in Hin.
      repeat (destruct Hin as [Hin|Hin]; [discriminate|]). contradiction.
    + intros prompt [].
    + discriminate.
Qed.

(** *** The project select box *)

Lemma same_key_eq (x v : cell) : same_key x v = true <-> x = v.
Proof.
  destruct x, v; simpl; split; try discriminate; try reflexivity; intros H.
  - apply String.eqb_eq in H. now subst.
  - injection H as ->. apply String.eqb_refl.
  - apply Z.eqb_eq in H. now subst.
  - injection H as ->. apply Z.eqb_refl.
Qed.

Lemma seen_In (x : cell) (seen : list cell) :
  existsb (same_key x) seen = true <-> In x seen.
Proof.
  rewrite existsb_exists. split.
  - intros (y & Hy & Hk). apply same_key_eq in Hk. now subst.
  - intros H. exists x. split; [exact H | now apply same_key_eq].
Qed.

Lemma unique_from_In (seen s : list cell) (v : cell) :
  In v (unique_from seen s) <-> In v s /\ ~ In v seen.
Proof.
  revert seen. induction s as [|x s IH]; intros seen.
  - simpl. tauto.
  - simpl. destruct (existsb (same_key x) seen) eqn:E.
    + apply seen_In in E. rewrite IH. split.
      * intros [H1 H2]. auto.
      * intros [[<- | H1] H2]; [contradiction | auto].
    + assert (N : ~ In x seen) by (rewrite <- seen_In; congruence).
      simpl. rewrite IH. simpl. split.
      * intros [<- | [H1 H2]]; auto.
      * intros [[<- | H1] H2]; auto.
        destruct (cell_eq_dec x v) as [->|D]; [now left | right].
        split; [exact H1 | intros [F|F]; auto].
Qed.

Lemma unique_from_NoDup (seen s : list cell) : NoDup (unique_from seen s).
Proof.
  revert seen. induction s as [|x s IH]; intros seen.
  - constructor.
  - simpl. destruct (existsb (same_key x) seen); [apply IH|].
    constructor; [|apply IH].
    rewrite unique_from_In. intros [_ N]. apply N. now left.
Qed.

Lemma project_rows_some (d : Dataset) (v : cell) :
  In v (column Project_ID d) -> isnull v = false -> project_rows d v <> [].
Proof.
  unfold column. rewrite in_map_iff. intros (r & <- & Hr) Hnn E.
  assert (Hin : In r (project_rows d (Project_ID r))).
  { apply project_rows_In. split; [exact Hr | now apply py_eq_same]. }
  now rewrite E in Hin.
Qed.

Lemma grows_page (kind : AnalysisKind) (r : ref) (a : ProjectAnalytics) (pid : cell) :
  respects more_output (page kind r a pid).
Proof.
  apply respects_page.
  - intros w. exists []. now rewrite app_nil_r.
  - exact more_output_trans.
  - intros w evs. now exists evs.
  - intros w prompt s'. exists []. cbn [after_request ui]. now rewrite app_nil_r.
Qed.

(** C9 (as amended).  The options of the project select box are the
    values of the Project_ID column without repetition: a value is offered
    exactly when some record carries it, and none is offered twice; a run
    of the script that loaded the table shows the select box with these
    options; and every offered identifier that is not a missing value
    selects at least one row. *)
Theorem selectable_projects (d : Dataset) :
  (forall v, In v (unique (column Project_ID d)) <-> In v (column Project_ID d)) /\
  NoDup (unique (column Project_ID d)) /\
  (forall ses s,
     read_csv "project_data.csv" = inl d ->
     In (Selectbox "Select Project" (unique (column Project_ID d)))
        (ui (snd (main (start ses s))))) /\
  (forall v,
     In v (unique (column Project_ID d)) -> isnull v = false ->
     project_rows d v <> []).
Proof.
  split; [|split; [|split]].
  - intros v. unfold unique. rewrite unique_from_In. simpl. tauto.
  - apply unique_from_NoDup.
  - intros ses s H. rewrite (main_loaded ses s d H).
    match goal with |- context [dashboard 0 ?w0] =>
      rewrite (dashboard_run 0 w0 d eq_refl)
    end.
    match goal with |- context [page ?k ?r ?a ?p ?w0] =>
      destruct (grows_page k r a p w0) as [evs ->]
    end.
    apply in_or_app. left. cbn [after_output ui]. simpl. tauto.
  - intros v Hv. apply project_rows_some.
    unfold unique in Hv. now apply unique_from_In in Hv.
Qed.

End ScriptFacts.

(** *** Runs with the example collaborators *)

Lemma prompt_builder_deterministic_witness :
  let ses := click "Analyze Timeline" in
  let w1 := holding (Env := answering) example_table ses 0 in
  let w2 := holding (Env := answering)
              [task "P1" "Design" 5 7; task "P1" "Build" 10 9] ses 7 in
  let prompt := timeline_prompt [task "P1" "Design" 5 7; task "P1" "Build" 10 9] in
  snd (analysis Timeline (init 0) (CStr "P1") w1) = after_request w1 prompt 1 /\
  snd (analysis Timeline (init 0) (CStr "P1") w2) = after_request w2 prompt 8.
Proof.
  intros ses w1 w2 prompt.
  exact (prompt_builder_deterministic (Env := answering) Timeline (init 0) (init 0)
           (CStr "P1") (CStr "P1") w1 w2 _ _ eq_refl eq_refl eq_refl).
Defined.

Lemma load_failure_halts_witness :
  main (start (Env := no_file) (click "Analyze Timeline") 0) =
  (Halt, after_output (start (Env := no_file) (click "Analyze Timeline") 0)
           [Title "Project Management Analytics";
            ErrorBox "Error loading data: [Errno 2] No such file or directory: 'project_data.csv'"]).
Proof.
  exact (proj2 (load_failure_halts (Env := no_file) file_missing eq_refl eq_refl)
           (click "Analyze Timeline") 0).
Defined.

Lemma service_failure_propagates_witness :
  let w := holding (Env := refusing) example_table (click "Assess Risks") 0 in
  analysis Risk (init 0) (CStr "P2") w =
  (Raise quota_exhausted,
   after_request w (risk_prompt [task "P2" "Test" 3 3]) 1).
Proof.
  intros w.
  exact (proj1 (service_failure_propagates (Env := refusing) Risk (init 0)
                  (CStr "P2") w example_table eq_refl)
           quota_exhausted 1 eq_refl).
Defined.

Lemma chart_and_prompt_rows_agree_witness :
  let final := snd (main (start (Env := answering) (click "Analyze Timeline") 0)) in
  let rows := [task "P1" "Design" 5 7; task "P1" "Build" 10 9] in
  (exists fig, In (PlotlyChart fig) (ui final) /\ fig_data fig = rows) /\
  (forall fig, In (PlotlyChart fig) (ui final) -> fig_data fig = rows) /\
  calls final = [timeline_prompt rows].
Proof.
  intros final rows.
  destruct (chart_and_prompt_rows_agree (Env := answering)
              (click "Analyze Timeline") 0 example_table eq_refl eq_refl)
    as (Hall & _ & Hdrawn).
  destruct (Hdrawn eq_refl) as [Hfig Hcalls].
  exact (conj Hfig (conj Hall Hcalls)).
Defined.

Lemma selectable_projects_witness :
  In (CStr "P2") (unique (column Project_ID example_table)) /\
  isnull (CStr "P2") = false /\
  project_rows example_table (CStr "P2") <> [] /\
  In (Selectbox "Select Project" [CStr "P1"; CStr "P2"])
     (ui (snd (main (start (Env := answering) (click "Analyze Timeline") 0)))).
Proof.
  assert (H : In (CStr "P2") (unique (column Project_ID example_table)))
    by (simpl; tauto).
  destruct (selectable_projects (Env := answering) example_table)
    as (_ & _ & Hbox & Hrows).
  split; [exact H|]. split; [reflexivity|].
  split; [exact (Hrows (CStr "P2") H eq_refl)|].
  exact (Hbox (click "Analyze Timeline") 0 eq_refl).
Defined.

(** C9 as stated fails for a table with an empty Project_ID field: the
    select box offers [nan], filtering by it selects no row, and the run
    in which it is selected sends the prompt with empty lists. *)
Lemma selectable_nan_counterexample :
  let final :=
    snd (main (start (Env := blank_on_disk) (click_second "Analyze Timeline") 0)) in
  In (Selectbox "Select Project" [CStr "P1"; CNaN]) (ui final) /\
  In CNaN (unique (column Project_ID table_with_blank)) /\
  chosen_project (click_second "Analyze Timeline") table_with_blank = CNaN /\
  project_rows table_with_blank CNaN = [] /\
  calls final = [empty_prompt Timeline].
Proof.
  repeat split.
  - vm_compute. tauto.
  - simpl. tauto.
Qed.

(* ================================================================== *)
(** ** Whole runs of the script *)

Section RunFacts.

Context {Env : Environment}.

(** X1.  A run in which the button of the selected page was not clicked
    (a first visit, a change of a select box, a click left over from
    another page) ends normally after the title, the two select boxes,
    the page header and the button: it draws no chart, makes no request
    and leaves the service as it was. *)
Theorem run_without_click (ses : Session) (s : svc_state) (d : Dataset) :
  read_csv "project_data.csv" = inl d ->
  clicked ses (button_of (chosen_kind ses)) = false ->
  main (start ses s) =
  (Ret tt,
   {| heap := [d];
      ui := [Title "Project Management Analytics";
             SidebarSelectbox "Select Analysis"
               ["Predictive Scheduling"; "Resource Optimization"; "Risk Assessment"];
             Selectbox "Select Project" (unique (column Project_ID d));
             Header (header_of (chosen_kind ses));
             Button (button_of (chosen_kind ses))];
      session := ses; calls := []; svc := s |}).
Proof.
  intros H Hc. rewrite (main_selected ses s d H).
  now rewrite page_idle by exact Hc.
Qed.

(** X2.  Whatever the file, the widgets and the service do, a run of the
    script makes at most one request; and it makes one only when the
    table was loaded and the button of the selected page was clicked,
    the request then being the prompt of the selected kind for the
    selected project. *)
Theorem at_most_one_request (ses : Session) (s : svc_state) :
  calls (snd (main (start ses s))) = [] \/
  exists d,
    read_csv "project_data.csv" = inl d /\
    clicked ses (button_of (chosen_kind ses)) = true /\
    calls (snd (main (start ses s))) =
      [build_prompt (chosen_kind ses) (project_rows d (chosen_project ses d))].
Proof.
  destruct (read_csv "project_data.csv") as [d|e] eqn:H.
  - destruct (clicked ses (button_of (chosen_kind ses))) eqn:Hc.
    + destruct (chart_accepted (chosen_kind ses) d) eqn:Ha.
      * right. exists d. split; [reflexivity|]. split; [reflexivity|].
        exact (proj1 (main_clicked_world ses s d H Hc Ha)).
      * left. now rewrite (main_rejected ses s d H Hc Ha).
    + left. rewrite (main_selected ses s d H).
      now rewrite page_idle by exact Hc.
  - left. destruct (exn_is_Exception e) eqn:He.
    + now rewrite (main_not_loaded ses s e H He).
    + now rewrite (main_uncaught ses s e H He).
Qed.

(** X3.  When plotly draws the chart of the table and the request of a
    clicked run fails, the run ends with the exception of the service:
    by then the header, the button, the spinner and the chart of the
    filtered rows are on the page and the request is logged once; no
    sub-header and no text follow. *)
Theorem run_with_failing_service (ses : Session) (s s' : svc_state) (d : Dataset)
    (e : exn) :
  read_csv "project_data.csv" = inl d ->
  clicked ses (button_of (chosen_kind ses)) = true ->
  chart_accepted (chosen_kind ses) d = true ->
  let prompt := build_prompt (chosen_kind ses) (project_rows d (chosen_project ses d)) in
  generate prompt s = (inr e, s') ->
  main (start ses s) = (Raise e, after_request (charted ses s d) prompt s').
Proof.
  intros H Hc Ha prompt G. rewrite (main_clicked ses s d H Hc Ha).
  fold prompt. now rewrite G.
Qed.

(** X4.  When plotly draws the chart of the table, the request of a
    clicked run succeeds and the response has a text, the run ends
    normally and the page ends with the sub-header of the analysis and
    exactly that text, below the chart; the text is not altered and
    nothing is shown after it. *)
Theorem run_with_answer (ses : Session) (s s' : svc_state) (d : Dataset)
    (resp : response) (t : string) :
  read_csv "project_data.csv" = inl d ->
  clicked ses (button_of (chosen_kind ses)) = true ->
  chart_accepted (chosen_kind ses) d = true ->
  let prompt := build_prompt (chosen_kind ses) (project_rows d (chosen_project ses d)) in
  generate prompt s = (inl resp, s') ->
  text resp = inl t ->
  main (start ses s) =
  (Ret tt,
   after_output (after_request (charted ses s d) prompt s')
     [Subheader (result_header_of (chosen_kind ses)); Write t]).
Proof.
  intros H Hc Ha prompt G T. rewrite (main_clicked ses s d H Hc Ha).
  fold prompt. rewrite G. cbn [fst snd]. now rewrite T.
Qed.

(** X5.  [load_data] catches only exceptions deriving from [Exception]:
    any other exception raised while reading the file passes through
    it, no error box is shown, and the run ends with that exception
    right after the title instead of halting. *)
Theorem load_data_uncaught (e : exn) :
  read_csv "project_data.csv" = inr e ->
  exn_is_Exception e = false ->
  (forall w, load_data w = (Raise e, w)) /\
  (forall ses s,
     main (start ses s) =
     (Raise e, {| heap := []; ui := [Title "Project Management Analytics"];
                  session := ses; calls := []; svc := s |})).
Proof.
  intros H He. split.
  - intros w. unfold load_data, try_except. unfold bind at 1.
    unfold pd_read_csv. now rewrite H, He.
  - intros ses s. now rewrite (main_uncaught ses s e H He).
Qed.

(** X6.  For a file with no rows the project select box has no option
    and returns [None]; a click then draws the chart of an empty frame
    and sends the template of the selected kind with empty lists. *)
Theorem run_on_empty_table (ses : Session) (s : svc_state) :
  read_csv "project_data.csv" = inl [] ->
  clicked ses (button_of (chosen_kind ses)) = true ->
  let final := snd (main (start ses s)) in
  chosen_project ses [] = CNone /\
  In (Selectbox "Select Project" []) (ui final) /\
  In (PlotlyChart (figure_of (chosen_kind ses) [])) (ui final) /\
  (forall fig, In (PlotlyChart fig) (ui final) -> fig_data fig = []) /\
  calls final = [empty_prompt (chosen_kind ses)].
Proof.
  intros H Hc final. subst final.
  assert (Ha : chart_accepted (chosen_kind ses) [] = true)
    by now destruct (chosen_kind ses).
  destruct (main_clicked_world ses s [] H Hc Ha) as (Hcalls & evs & Hui & Hevs).
  rewrite Hui, Hcalls. cbn [charted selecting after_output ui app project_rows
    column map series_eq getitem_mask].
  split; [unfold chosen_project; now destruct (project_index ses)|].
  split; [simpl; tauto|].
  split; [simpl; tauto|].
  split.
  - intros fig Hin. simpl in Hin.
    repeat (destruct Hin as [Hin|Hin]; [try discriminate|]).
    + injection Hin as <-. now destruct (chosen_kind ses).
    + now apply Hevs in Hin.
  - now destruct (chosen_kind ses).
Qed.

End RunFacts.

(* ================================================================== *)
(** ** More on the select box, the filter and the prompts *)

Section TableFacts.






Lemma project_rows_app (d d' : Dataset) (pid : cell) :
  project_rows (d ++ d')%list pid = (project_rows d pid ++ project_rows d' pid)%list.
Proof.
  induction d as [|r d IH]; [reflexivity|].
  rewrite <- app_comm_cons, !project_rows_cons, IH.
  now destruct (py_eq (Project_ID r) pid).
Qed.

Lemma project_rows_again (d : Dataset) (pid pid' : cell) :
  project_rows (project_rows d pid) pid' =
  if cell_eq_dec pid pid' then project_rows d pid else [].
Proof.
  induction d as [|r d IH].
  - now destruct (cell_eq_dec pid pid').
  - rewrite project_rows_cons.
    destruct (py_eq (Project_ID r) pid) eqn:E; [|exact IH].
    rewrite project_rows_cons, IH.
    pose proof (py_eq_true _ _ E) as Hid.
    destruct (cell_eq_dec pid pid') as [<-|N].
    + now rewrite E.
    + destruct (py_eq (Project_ID r) pid') eqn:E'; [|reflexivity].
      apply py_eq_true in E'. congruence.
Qed.

End TableFacts.



(** X8.  Filtering composes: filtering the rows of a project by the same
    identifier gives the same rows, filtering them by another identifier
    gives nothing, and the rows a project has in two tables put end to
    end are its rows in the first followed by its rows in the second. *)
Theorem project_filter_composes (d d' : Dataset) (pid pid' : cell) :
  project_rows (project_rows d pid) pid' =
    (if cell_eq_dec pid pid' then project_rows d pid else []) /\
  project_rows (d ++ d')%list pid = (project_rows d pid ++ project_rows d' pid)%list.
Proof.
  split; [apply project_rows_again | apply project_rows_app].
Qed.

(** X9.  Every record of the table whose Project_ID is present is listed
    under exactly one project: its identifier is among the options of the
    select box, and the record is among the rows of an identifier exactly
    when that identifier is its own.  A record whose Project_ID is
    missing is among the rows of no identifier. *)
Theorem record_in_one_project (d : Dataset) (r : ProjectRecord) :
  In r d ->
  (isnull (Project_ID r) = false ->
   In (Project_ID r) (unique (column Project_ID d)) /\
   forall v, In r (project_rows d v) <-> v = Project_ID r) /\
  (isnull (Project_ID r) = true ->
   forall v, ~ In r (project_rows d v)).
Proof.
  intros Hr. split.
  - intros Hnn. split.
    + unfold unique. rewrite unique_from_In. split; [|intros []].
      unfold column. now apply in_map.
    + intros v. rewrite project_rows_In. split.
      * intros [_ E]. symmetry. now apply py_eq_true.
      * intros ->. split; [exact Hr | now apply py_eq_same].
  - intros Hn v Hin. apply project_rows_In in Hin. destruct Hin as [_ E].
    destruct (Project_ID r), v; simpl in *; discriminate.
Qed.

Lemma record_in_one_project_witness :
  (In (CStr "P2") (unique (column Project_ID example_table)) /\
   forall v, In (task "P2" "Test" 3 3) (project_rows example_table v) <->
             v = CStr "P2") /\
  (forall v, ~ In unassigned_task (project_rows table_with_blank v)).
Proof.
  split.
  - apply (record_in_one_project example_table (task "P2" "Test" 3 3));
      [simpl; tauto | reflexivity].
  - apply (record_in_one_project table_with_blank unassigned_task);
      [simpl; tauto | reflexivity].
Defined.

Section LineFacts.

Lemma count_char_app (c : ascii) (a b : string) :
  count_char c (a ++ b) = count_char c a + count_char c b.
Proof.
  induction a as [|x a IH]; simpl; [reflexivity | rewrite IH; lia].
Qed.

Lemma repr_char_one_line (q c : ascii) :
  q = "039"%char \/ q = "034"%char ->
  count_char "010" (repr_char q c) = 0.
Proof.
  intros [-> | ->];
    destruct c as [[|] [|] [|] [|] [|] [|] [|] [|]]; reflexivity.
Qed.

Lemma repr_body_one_line (q : ascii) (s : string) :
  q = "039"%char \/ q = "034"%char ->
  count_char "010" (repr_body q s) = 0.
Proof.
  intros Hq. induction s as [|c s IH]; [reflexivity|].
  simpl. now rewrite count_char_app, repr_char_one_line, IH.
Qed.

Lemma uint_one_line (u : Decimal.uint) :
  count_char "010" (NilEmpty.string_of_uint u) = 0.
Proof.
  induction u; simpl; [reflexivity | assumption ..].
Qed.

Lemma py_repr_one_line (v : cell) : count_char "010" (py_repr v) = 0.
Proof.
  destruct v as [s|z| |]; cbn [py_repr]; try reflexivity.
  - unfold repr_str. cbn [count_char]. rewrite count_char_app.
    rewrite repr_body_one_line by apply repr_quote_cases.
    destruct (repr_quote_cases s) as [-> | ->]; reflexivity.
  - unfold repr_int.
    destruct z as [|p|p]; cbn [Z.to_int NilZero.string_of_int]; [reflexivity|..];
      rewrite string_of_uint_nonnil by apply DecimalPos.Unsigned.to_uint_nonnil.
    + apply uint_one_line.
    + cbn [count_char]. now rewrite uint_one_line.
Qed.

Lemma repr_list_one_line (vs : list cell) : count_char "010" (repr_list vs) = 0.
Proof.
  unfold repr_list. cbn [append count_char]. rewrite count_char_app.
  assert (J : count_char "010" (String.concat ", " (map py_repr vs)) = 0).
  { induction vs as [|v [|v' vs] IH]; [reflexivity | apply py_repr_one_line |].
    change (String.concat ", " (map py_repr (v :: v' :: vs)))
      with (py_repr v ++ ", " ++ String.concat ", " (map py_repr (v' :: vs))).
    now rewrite !count_char_app, py_repr_one_line, IH. }
  now rewrite J.
Qed.

Lemma field_lines (label : string) (vs : list cell) :
  count_char "010" (field label vs) = count_char "010" label + 1.
Proof.
  unfold field. rewrite !count_char_app, repr_list_one_line. simpl. lia.
Qed.

Lemma text_app_cancel (s a b : string) : s ++ a = s ++ b -> a = b.
Proof.
  induction s as [|x s IH]; simpl; [trivial|].
  intros H. injection H as H. now apply IH.
Qed.

(** Two texts without a line break, each followed by a line break, that
    give the same text are the same, and so is what follows. *)
Lemma split_at_newline (a a' r r' : string) :
  count_char "010" a = 0 -> count_char "010" a' = 0 ->
  a ++ String "010" r = a' ++ String "010" r' -> a = a' /\ r = r'.
Proof.
  revert a'. induction a as [|x a IH]; intros [|x' a'] Ha Ha' H; simpl in *.
  - injection H as ->. now split.
  - injection H as <- _. simpl in Ha'. discriminate.
  - injection H as -> _. simpl in Ha. discriminate.
  - injection H as <- H.
    destruct (Ascii.eqb x "010"); [discriminate|].
    destruct (IH a' Ha Ha' H) as [-> ->]. now split.
Qed.

Lemma field_cancel (label : string) (vs vs' : list cell) (rest rest' : string) :
  field label vs ++ rest = field label vs' ++ rest' -> vs = vs' /\ rest = rest'.
Proof.
  unfold field. rewrite !text_app_assoc. intros H.
  apply text_app_cancel, text_app_cancel in H.
  apply split_at_newline in H; try apply repr_list_one_line.
  destruct H as [HL ->]. split; [|reflexivity].
  assert (E : read_list (repr_list vs) = read_list (repr_list vs')) by now rewrite HL.
  rewrite !read_list_repr in E. now injection E.
Qed.

End LineFacts.

(** X10.  Whatever the rows hold, the prompt of a kind has the same ten
    line breaks as its template: [repr] prints a line break inside a
    cell as an escape, so no cell text ends a line of the prompt or adds
    one. *)
Theorem prompt_line_count (kind : AnalysisKind) (rows : Dataset) :
  count_char "010" (build_prompt kind rows) = 10 /\
  Forall (fun c => count_char "010" (repr_list (column c rows)) = 0)
         (kind_columns kind).
Proof.
  split.
  - destruct kind; unfold build_prompt, timeline_prompt, resource_prompt, risk_prompt;
      rewrite !count_char_app, !field_lines; reflexivity.
  - destruct kind; unfold kind_columns; repeat constructor; apply repr_list_one_line.
Qed.

(** X11.  The prompt of a kind carries its three columns and nothing
    else of the rows: two record sequences give the same prompt exactly
    when their records have, one by one, the same values in the three
    columns of the kind; so different column contents never give the
    same prompt, and no other column has any influence on it. *)
Theorem prompt_determines_columns (kind : AnalysisKind) (rows rows' : Dataset) :
  build_prompt kind rows = build_prompt kind rows' <->
  Forall (fun c => map c rows = map c rows') (kind_columns kind).
Proof.
  split.
  - intros H.
    destruct kind; unfold build_prompt, timeline_prompt, resource_prompt,
      risk_prompt in H;
      apply text_app_cancel, text_app_cancel in H;
      apply field_cancel in H; destruct H as [H1 H];
      apply field_cancel in H; destruct H as [H2 H];
      apply field_cancel in H; destruct H as [H3 _];
      unfold kind_columns; repeat constructor; assumption.
  - intros H.
    destruct kind; unfold kind_columns in H;
      inversion H as [|? ? H1 H']; subst;
      inversion H' as [|? ? H2 H'']; subst;
      inversion H'' as [|? ? H3 _]; subst;
      unfold build_prompt, timeline_prompt, resource_prompt, risk_prompt, column;
      now rewrite H1, H2, H3.
Qed.

(** Rows that differ in the task name give different timeline prompts;
    rows that differ only in the project identifier give the same. *)
Lemma prompt_determines_columns_witness :
  build_prompt Timeline [task "P1" "Design" 5 7] <>
  build_prompt Timeline [task "P1" "Build" 5 7] /\
  build_prompt Timeline [task "P1" "Design" 5 7] =
  build_prompt Timeline [task "P2" "Design" 5 7].
Proof.
  split.
  - intros E.
    pose proof (Forall_inv (proj1 (prompt_determines_columns Timeline _ _) E)) as F.
    discriminate F.
  - apply (proj2 (prompt_determines_columns Timeline _ _)).
    repeat constructor.
Defined.

(** X12.  The three templates differ in their first line, so a prompt
    tells which analysis it asks for: prompts of two different kinds are
    never equal, whatever rows they were built from. *)
Theorem prompt_identifies_kind (kind kind' : AnalysisKind) (rows rows' : Dataset) :
  build_prompt kind rows = build_prompt kind' rows' -> kind = kind'.
Proof.
  destruct kind, kind'; intros H; try reflexivity; exfalso;
    unfold build_prompt, timeline_prompt, resource_prompt, risk_prompt in H;
    apply text_app_cancel in H; unfold line in H;
    rewrite !text_app_assoc in H;
    apply text_app_cancel in H; cbn [append] in H; discriminate H.
Qed.

Lemma prompt_identifies_kind_witness :
  build_prompt Risk example_table = build_prompt Risk example_table /\ Risk = Risk.
Proof.
  split; [reflexivity|].
  exact (prompt_identifies_kind Risk Risk example_table example_table eq_refl).
Defined.

(** *** Whole runs with the example collaborators *)

Lemma run_without_click_witness :
  main (start (Env := answering) (click "Optimize Resources") 0) =
  (Ret tt,
   after_output (selecting (Env := answering) (click "Optimize Resources") 0 example_table)
     [Header "Predictive Scheduling"; Button "Analyze Timeline"]).
Proof.
  exact (run_without_click (Env := answering) (click "Optimize Resources") 0
           example_table eq_refl eq_refl).
Defined.

Lemma run_with_failing_service_witness :
  main (start (Env := refusing) (click "Analyze Timeline") 0) =
  (Raise quota_exhausted,
   after_request (charted (Env := refusing) (click "Analyze Timeline") 0 example_table)
     (timeline_prompt [task "P1" "Design" 5 7; task "P1" "Build" 10 9]) 1).
Proof.
  exact (run_with_failing_service (Env := refusing) (click "Analyze Timeline") 0 1
           example_table quota_exhausted eq_refl eq_refl eq_refl eq_refl).
Defined.

Lemma run_with_answer_witness :
  main (start (Env := answering) (click "Analyze Timeline") 0) =
  (Ret tt,
   after_output
     (after_request (charted (Env := answering) (click "Analyze Timeline") 0 example_table)
        (timeline_prompt [task "P1" "Design" 5 7; task "P1" "Build" 10 9]) 1)
     [Subheader "AI Insights"; Write "On track."]).
Proof.
  exact (run_with_answer (Env := answering) (click "Analyze Timeline") 0 1
           example_table "On track." "On track." eq_refl eq_refl eq_refl eq_refl
           eq_refl).
Defined.

Lemma load_data_uncaught_witness :
  main (start (Env := interrupted) (click "Analyze Timeline") 0) =
  (Raise keyboard_interrupt,
   after_output (start (Env := interrupted) (click "Analyze Timeline") 0)
     [Title "Project Management Analytics"]).
Proof.
  exact (proj2 (load_data_uncaught (Env := interrupted) keyboard_interrupt
                  eq_refl eq_refl)
           (click "Analyze Timeline") 0).
Defined.

Lemma run_on_empty_table_witness :
  let final := snd (main (start (Env := header_only) (click "Analyze Timeline") 0)) in
  chosen_project (click "Analyze Timeline") [] = CNone /\
  In (Selectbox "Select Project" []) (ui final) /\
  In (PlotlyChart (figure_of Timeline [])) (ui final) /\
  (forall fig, In (PlotlyChart fig) (ui final) -> fig_data fig = []) /\
  calls final = [empty_prompt Timeline].
Proof.
  exact (run_on_empty_table (Env := header_only) (click "Analyze Timeline") 0
           eq_refl eq_refl).
Defined.

(** X13.  On the timeline page, when the two duration columns of the
    table differ in type (one numeric, one text), a click ends the run
    with plotly's [ValueError] right after the spinner: no chart is
    shown, no request is made, and the service is left as it was. *)
Theorem run_with_rejected_chart {Env : Environment} (ses : Session)
    (s : svc_state) (d : Dataset) :
  read_csv "project_data.csv" = inl d ->
  chosen_kind ses = Timeline ->
  clicked ses "Analyze Timeline" = true ->
  same_type_days d = false ->
  main (start ses s) =
  (Raise wide_form_error,
   {| heap := [d];
      ui := [Title "Project Management Analytics";
             SidebarSelectbox "Select Analysis"
               ["Predictive Scheduling"; "Resource Optimization"; "Risk Assessment"];
             Selectbox "Select Project" (unique (column Project_ID d));
             Header "Predictive Scheduling";
             Button "Analyze Timeline";
             Spinner "Analyzing..."];
      session := ses; calls := []; svc := s |}).
Proof.
  intros H Hk Hc Hd.
  rewrite (main_rejected ses s d H); rewrite Hk; [reflexivity | exact Hc | exact Hd].
Qed.

Lemma run_with_rejected_chart_witness :
  main (start (Env := mixed_on_disk) (click "Analyze Timeline") 0) =
  (Raise wide_form_error,
   after_output (selecting (Env := mixed_on_disk) (click "Analyze Timeline") 0
                   mixed_days_table)
     [Header "Predictive Scheduling"; Button "Analyze Timeline";
      Spinner "Analyzing..."]).
Proof.
  exact (run_with_rejected_chart (Env := mixed_on_disk) (click "Analyze Timeline") 0
           mixed_days_table eq_refl eq_refl eq_refl eq_refl).
Defined.
